(** * Personality prediction API (app.py): a shallow embedding

    The service is a Flask application with two routes.  [home] serves an
    informational page on [GET /]; [predict] reads a JSON body on
    [POST /predict], shapes it into a one-row frame of seven columns, asks the
    loaded classifier for an encoded class and the label encoder for its name.

    Python values are an inductive type, exceptions a record of class and
    text, and every effect the handlers have (parsing the body, printing,
    calling the classifier, calling the encoder) is recorded in a trace that
    the computation returns next to its result. *)

Set Warnings "-register-all".
From Stdlib Require Import ZArith List String Ascii Bool Lia PrimFloat.
From Stdlib Require Import DecimalString DecimalPos Permutation.
From Stdlib Require FloatOps SpecFloat.
Import ListNotations.

#[local] Open Scope string_scope.
#[local] Open Scope Z_scope.

(** ** Python values *)

(** What [json.loads] can produce.  A dict is the list of its items in
    insertion order; its keys are pairwise distinct in Python, which the
    statements that need it ask for with [NoDup]. *)
Inductive pyval : Type :=
| PNone
| PBool (b : bool)
| PInt (z : Z)
| PFloat (f : float)
| PStr (s : string)
| PList (l : list pyval)
| PDict (items : list (string * pyval)).

(** Numbers, as [pd.to_numeric] hands them back. *)
Inductive pynum : Type :=
| NInt (z : Z)
| NFloat (f : float).

Definition num_val (n : pynum) : pyval :=
  match n with
  | NInt z => PInt z
  | NFloat f => PFloat f
  end.

(** The float NaN, pandas' marker of a missing number. *)
Definition NaN : pyval := PFloat nan.

(** ** Exceptions and results *)

Inductive exn_class : Type :=
| FileNotFoundError
| AttributeError
| ValueError
| IndexError
| KeyError
| BadRequest
| TemplateSyntaxError
| OtherException (name : string).

(** An instance of a subclass of [Exception]; [exn_text] is [str(e)]. *)
Record exn : Type := mkExn { exn_cls : exn_class; exn_text : string }.

Inductive result (A : Type) : Type :=
| Ok (a : A)
| Raise (e : exn).
Arguments Ok {A} a.
Arguments Raise {A} e.

(** ** Library functions taken as an interface

    Seven library behaviours are not written out here: the text of a float
    ([str] of a Python float), the quoted form of a string ([repr] of a
    [str]), pandas' parser of numeric strings, and Jinja's evaluation of
    variable and block tags; what [Series.astype(str)] makes of a float cell,
    which is its text, or nothing when the cell stays a missing value (as
    pandas 3 leaves NaN); how [pd.to_numeric] turns an int outside the 64-bit
    ranges into a float, or fails to; and the text numpy gives for the codes
    of [y] that are not in [0 .. n - 1]. *)
Class PyLib : Type := {
  float_str : float -> string;
  str_repr : string -> string;
  parse_number : string -> option pynum;
  jinja_tag : string -> string -> result string;
  astype_str_float : float -> option string;
  wide_int_to_float : Z -> result float;
  setdiff_str : list Z -> nat -> string
}.

(** ** Strings *)

Definition dq : string := String (ascii_of_nat 34) EmptyString.
Definition LF : ascii := ascii_of_nat 10.
Definition CR : ascii := ascii_of_nat 13.

(** [str.lower] on the ASCII range; bytes of other characters are kept, and
    no character outside ASCII lowercases to one of [y], [e], [s]. *)
Definition lower_ascii (c : ascii) : ascii :=
  let n := nat_of_ascii c in
  if (Nat.leb 65 n && Nat.leb n 90)%bool then ascii_of_nat (n + 32) else c.

Fixpoint lower (s : string) : string :=
  match s with
  | EmptyString => EmptyString
  | String c r => String (lower_ascii c) (lower r)
  end.

Fixpoint join (sep : string) (l : list string) : string :=
  match l with
  | [] => ""
  | [x] => x
  | x :: r => x ++ sep ++ join sep r
  end.

(** [str] of a Python int. *)
Definition int_str (z : Z) : string := NilZero.string_of_int (Z.to_int z).

Section Values.
Context {lib : PyLib}.

(** [repr(v)] *)
Fixpoint py_repr (v : pyval) : string :=
  match v with
  | PNone => "None"
  | PBool true => "True"
  | PBool false => "False"
  | PInt z => int_str z
  | PFloat f => float_str f
  | PStr s => str_repr s
  | PList l => "[" ++ join ", " (map py_repr l) ++ "]"
  | PDict items =>
      "{" ++ join ", "
               (map (fun kv => let (k, x) := kv : string * pyval in
                               str_repr k ++ ": " ++ py_repr x) items)
          ++ "}"
  end.

(** [str(v)] *)
Definition py_str (v : pyval) : string :=
  match v with
  | PStr s => s
  | _ => py_repr v
  end.

End Values.

(** [type(v).__name__] *)
Definition type_name (v : pyval) : string :=
  match v with
  | PNone => "NoneType"
  | PBool _ => "bool"
  | PInt _ => "int"
  | PFloat _ => "float"
  | PStr _ => "str"
  | PList _ => "list"
  | PDict _ => "dict"
  end.

(** ** Effects: a result and the trace of what was done *)

(** A one-row [DataFrame]: its columns, in order, each with the cell of row 0. *)
Definition frame : Type := list (string * pyval).

Inductive event : Type :=
| EvParse                       (* request.get_json(force=True) was called *)
| EvPrint (line : string)       (* print(line) *)
| EvPredict (row : frame)       (* loaded_model.predict(row) was called *)
| EvDecode (codes : list Z).    (* loaded_le_personality.inverse_transform(codes) *)

Definition M (A : Type) : Type := (result A * list event)%type.

Definition ret {A} (a : A) : M A := (Ok a, []).

Definition bind {A B} (m : M A) (k : A -> M B) : M B :=
  match m with
  | (Ok a, t) => let (r, t') := k a in (r, (t ++ t')%list)
  | (Raise e, t) => (Raise e, t)
  end.

Definition emit (ev : event) : M unit := (Ok tt, [ev]).

Definition lift {A} (r : result A) : M A := (r, []).

(** [try: m except Exception as e: h e] *)
Definition try_except {A} (m : M A) (h : exn -> M A) : M A :=
  match m with
  | (Ok a, t) => (Ok a, t)
  | (Raise e, t) => let (r, t') := h e in (r, (t ++ t')%list)
  end.

(** Sequencing where only an exception can happen. *)
Definition rbind {A B} (r : result A) (k : A -> result B) : result B :=
  match r with
  | Ok a => k a
  | Raise e => Raise e
  end.

(** A [for] loop that updates [a] and stops at the first exception. *)
Fixpoint fold_result {A B} (f : A -> B -> result A) (l : list B) (a : A)
  : result A :=
  match l with
  | [] => Ok a
  | b :: r => rbind (f a b) (fold_result f r)
  end.

Notation "x <- c1 ;; c2" := (bind c1 (fun x => c2))
  (at level 61, c1 at next level, right associativity).
Notation "c1 ;; c2" := (bind c1 (fun _ => c2))
  (at level 61, right associativity).

Fixpoint mapM {A B} (f : A -> M B) (l : list A) : M (list B) :=
  match l with
  | [] => ret []
  | a :: r => b <- f a ;; bs <- mapM f r ;; ret (b :: bs)
  end.

(** ** Dicts and one-row frames *)

Fixpoint lookup (items : list (string * pyval)) (k : string) : option pyval :=
  match items with
  | [] => None
  | (k', v) :: r => if String.eqb k' k then Some v else lookup r k
  end.

(** [d.get(k)] *)
Definition dict_get (items : list (string * pyval)) (k : string) : pyval :=
  match lookup items k with
  | Some v => v
  | None => PNone
  end.

(** [v.get]: only a dict has the method. *)
Definition get_method (v : pyval) : result (string -> pyval) :=
  match v with
  | PDict items => Ok (dict_get items)
  | _ => Raise (mkExn AttributeError
                  ("'" ++ type_name v ++ "' object has no attribute 'get'"))
  end.

(** [col in df.columns] *)
Definition has_column (df : frame) (col : string) : bool :=
  existsb (fun kv => String.eqb (fst kv) col) df.

(** [df[col] = v]: an existing column keeps its place, a new one goes last. *)
Fixpoint set_column (df : frame) (col : string) (v : pyval) : frame :=
  match df with
  | [] => [(col, v)]
  | (c, x) :: r =>
      if String.eqb c col then (c, v) :: r else (c, x) :: set_column r col v
  end.

(** [df[cols]]: the named columns in the order asked for. *)
Fixpoint select (df : frame) (cols : list string) : result frame :=
  match cols with
  | [] => Ok []
  | c :: r =>
      match lookup df c with
      | None => Raise (mkExn KeyError (c ++ " not in index"))
      | Some v =>
          match select df r with
          | Ok row => Ok ((c, v) :: row)
          | Raise e => Raise e
          end
      end
  end.

(** ** The loaded artifacts *)

(** The classifier is opaque: [predict] maps a frame to the encoded classes of
    its rows, or raises. *)
Record classifier : Type := { clf_predict : frame -> result (list Z) }.

(** The label encoder: [classes_] lists the class names, a code is the
    position of its class. *)
Record label_encoder : Type := { classes_ : list string }.

Definition known_code (le : label_encoder) (i : Z) : bool :=
  ((0 <=? i) && (i <? Z.of_nat (List.length (classes_ le))))%bool.

(** The [ValueError] of [inverse_transform]: its text ends with the codes
    that are in no class, as numpy prints them. *)
Definition unseen_labels {lib : PyLib} (le : label_encoder) (y : list Z) : exn :=
  mkExn ValueError
    ("y contains previously unseen labels: "
     ++ setdiff_str y (List.length (classes_ le))).

(** [le.inverse_transform(y)]: the names of the codes, [ValueError] when a code
    is outside [0 .. len(classes_) - 1]. *)
Definition inverse_transform {lib : PyLib} (le : label_encoder) (y : list Z)
  : result (list string) :=
  if forallb (known_code le) y
  then Ok (map (fun i => nth (Z.to_nat i) (classes_ le) "") y)
  else Raise (unseen_labels le y).

(** [a[0]] *)
Definition index0 (a : list string) : result string :=
  match a with
  | x :: _ => Ok x
  | [] => Raise (mkExn IndexError "index 0 is out of bounds for axis 0 with size 0")
  end.

(** The module globals [loaded_model] and [loaded_le_personality]. *)
Record server_state : Type := {
  loaded_model : option classifier;
  loaded_le_personality : option label_encoder
}.

(** ** Requests and responses *)

(** A request as the handlers see it: [request.url_root] and the outcome of
    [request.get_json(force=True)], which is the parsed body or the exception
    Flask raises for a body that is not JSON. *)
Record request : Type := {
  url_root : string;
  get_json : result pyval
}.

Inductive payload : Type :=
| Json (v : pyval)
| Html (s : string).

Record response : Type := { status : Z; body : payload }.

(** [jsonify({k: v})] *)
Definition jsonify1 (k : string) (v : string) : payload :=
  Json (PDict [(k, PStr v)]).

(** ** Feature normalisation *)

Definition expected_feature_order : list string :=
  [ "Time_spent_Alone";
    "Stage_fear";
    "Social_event_attendance";
    "Going_outside";
    "Drained_after_socializing";
    "Friends_circle_size";
    "Post_frequency" ].

Definition categorical_columns : list string :=
  [ "Stage_fear"; "Drained_after_socializing" ].

Definition numeric_columns : list string :=
  [ "Time_spent_Alone"; "Social_event_attendance"; "Going_outside";
    "Friends_circle_size"; "Post_frequency" ].

(** [lambda x: 1 if x.lower() == 'yes' else 0] *)
Definition yes_no (x : string) : Z :=
  if String.eqb (lower x) "yes" then 1 else 0.

Section Normalizer.
Context {lib : PyLib}.

(** [input_df[col].iloc[0]], read where the column is known to exist. *)
Definition iloc0 (df : frame) (col : string) : pyval := dict_get df col.

Definition is_None (v : pyval) : bool :=
  match v with
  | PNone => true
  | _ => false
  end.

(** [Series.astype(str)] on one cell: the text of the value, or nothing for
    a float that the library keeps as a missing value. *)
Definition astype_str (v : pyval) : option string :=
  match v with
  | PFloat f => astype_str_float f
  | _ => Some (py_str v)
  end.

(** What [x.lower()] raises when [x] is still a float. *)
Definition no_lower : exn :=
  mkExn AttributeError "'float' object has no attribute 'lower'".

(** [.apply(lambda x: 1 if x.lower() == 'yes' else 0)] on the cell that
    [astype(str)] left. *)
Definition apply_yes_no (x : option string) : result pyval :=
  match x with
  | Some text => Ok (PInt (yes_no text))
  | None => Raise no_lower
  end.

(** One turn of the loop over the categorical columns: [astype(str)] and
    [yes_no] when the column exists and its cell is not [None], else [0]. *)
Definition normalize_categorical (df : frame) (col : string) : result frame :=
  if (has_column df col && negb (is_None (iloc0 df col)))%bool
  then rbind (apply_yes_no (astype_str (iloc0 df col)))
             (fun cell => Ok (set_column df col cell))
  else Ok (set_column df col (PInt 0)).

(** The ints a column of dtype int64 or uint64 holds. *)
Definition in_64_bits (z : Z) : bool :=
  ((- 2 ^ 63 <=? z) && (z <? 2 ^ 64))%bool.

(** [pd.to_numeric(_, errors='coerce')] on one cell: floats, booleans and
    ints of 64 bits stay, a wider int becomes a float, a string is parsed,
    and what cannot be read as a number becomes NaN. *)
Definition to_numeric (v : pyval) : result pyval :=
  match v with
  | PNone => Ok NaN
  | PBool b => Ok (PBool b)
  | PInt z =>
      if in_64_bits z then Ok (PInt z)
      else rbind (wide_int_to_float z) (fun f => Ok (PFloat f))
  | PFloat f => Ok (PFloat f)
  | PStr s =>
      match parse_number s with
      | Some n => Ok (num_val n)
      | None => Ok NaN
      end
  | PList _ => Ok NaN
  | PDict _ => Ok NaN
  end.

(** One turn of the loop over the numeric columns. *)
Definition normalize_numeric (df : frame) (col : string) : result frame :=
  if has_column df col
  then rbind (to_numeric (iloc0 df col))
             (fun cell => Ok (set_column df col cell))
  else Ok (set_column df col PNone).

(** The two loops, then [input_df[expected_feature_order]]. *)
Definition normalize (input_df : frame) : result frame :=
  rbind (fold_result normalize_categorical categorical_columns input_df)
    (fun input_df =>
       rbind (fold_result normalize_numeric numeric_columns input_df)
         (fun input_df => select input_df expected_feature_order)).

(** [{feature: request_data.get(feature) for feature in expected_feature_order}]
    and the frame [pd.DataFrame([_])] built from it. *)
Definition input_features (request_data : pyval) : M frame :=
  mapM (fun feature =>
          g <- lift (get_method request_data) ;;
          ret (feature, g feature))
       expected_feature_order.

(** ** POST /predict *)

Definition unavailable_message : string :=
  "Prediction service unavailable: Model not loaded on server.".

Definition internal_error_prefix : string :=
  "An internal server error occurred during prediction: ".

(** The body of the [try] block. *)
Definition predict_try (model : classifier) (le : label_encoder)
    (req : request) : M response :=
  emit EvParse ;;
  request_data <- lift (get_json req) ;;
  emit (EvPrint ("Received prediction request with raw data: "
                 ++ py_str request_data)) ;;
  input_df <- input_features request_data ;;
  input_df <- lift (normalize input_df) ;;
  emit (EvPredict input_df) ;;
  prediction_encoded <- lift (clf_predict model input_df) ;;
  emit (EvDecode prediction_encoded) ;;
  labels <- lift (inverse_transform le prediction_encoded) ;;
  prediction_label <- lift (index0 labels) ;;
  ret {| status := 200; body := jsonify1 "prediction" prediction_label |}.

(** The [except Exception as e] block. *)
Definition predict_except (e : exn) : M response :=
  emit (EvPrint ("Error during prediction: " ++ exn_text e)) ;;
  ret {| status := 500;
         body := jsonify1 "error" (internal_error_prefix ++ exn_text e) |}.

Definition predict (st : server_state) (req : request) : M response :=
  match loaded_model st, loaded_le_personality st with
  | Some model, Some le => try_except (predict_try model le req) predict_except
  | _, _ => ret {| status := 500; body := jsonify1 "error" unavailable_message |}
  end.

End Normalizer.

(** ** Loading the artifacts at start-up *)

Definition MODEL_PATH : string := "models/personality_model.joblib".
Definition LABEL_ENCODER_PATH : string := "models/personality_label_encoder.joblib".

(** What [joblib.load] does on the two paths. *)
Record disk : Type := {
  load_model_file : result classifier;
  load_encoder_file : result label_encoder
}.

(** The two [except] clauses of the loader. *)
Definition load_failed (e : exn) : list event :=
  match exn_cls e with
  | FileNotFoundError =>
      [ EvPrint ("Error: Model files not found at '" ++ MODEL_PATH ++ "' or '"
                 ++ LABEL_ENCODER_PATH ++ "'.");
        EvPrint "Please ensure the 'models/' directory exists in the project root and contains the '.joblib' files.";
        EvPrint "You need to train the model first by running the `introvert_extrovert_predictor.ipynb` notebook to generate these files." ]
  | _ =>
      [ EvPrint ("An unexpected error occurred while loading model files: "
                 ++ exn_text e) ]
  end.

(** Module initialisation up to the creation of the Flask application: both
    globals start as [None] and each is assigned when its load returns. *)
Definition startup (d : disk) : server_state * list event :=
  match load_model_file d with
  | Raise e =>
      ({| loaded_model := None; loaded_le_personality := None |}, load_failed e)
  | Ok model =>
      match load_encoder_file d with
      | Raise e =>
          ({| loaded_model := Some model; loaded_le_personality := None |},
           load_failed e)
      | Ok le =>
          ({| loaded_model := Some model; loaded_le_personality := Some le |},
           [ EvPrint ("Model loaded successfully from " ++ MODEL_PATH);
             EvPrint ("Label Encoder loaded successfully from "
                      ++ LABEL_ENCODER_PATH) ])
      end
  end.

(** The guard of [predict]: the service is available when both globals are set. *)
Definition available (st : server_state) : bool :=
  match loaded_model st, loaded_le_personality st with
  | Some _, Some _ => true
  | _, _ => false
  end.

(** ** GET / *)

(** The text of [welcome_message] before the interpolated endpoint. *)
Definition page_head : string :=
  "
    <div style="
  ++ dq ++
  "font-family: Arial, sans-serif; text-align: center; margin-top: 50px; padding: 20px; background-color: #f9f9f9; border-radius: 10px; box-shadow: 0 4px 8px rgba(0,0,0,0.1);"
  ++ dq ++
  ">
        <h1 style="
  ++ dq ++
  "color: #333; border-bottom: 2px solid #4CAF50; padding-bottom: 10px; margin-bottom: 20px;"
  ++ dq ++
  ">
            Welcome to the Personality Prediction API!
        </h1>
        <p style="
  ++ dq ++
  "font-size: 1.1em; color: #555; line-height: 1.6;"
  ++ dq ++
  ">
            This API predicts whether a person is an Introvert or Extrovert based on provided characteristics.
        </p>
        <p style="
  ++ dq ++
  "font-size: 1.1em; color: #555; line-height: 1.6;"
  ++ dq ++
  ">
            To get a prediction, you need to send a <strong>POST request</strong> to the <strong><code>/predict</code></strong> endpoint.
        </p>
        <h2 style="
  ++ dq ++
  "color: #666; margin-top: 30px; border-bottom: 1px solid #ddd; padding-bottom: 5px;"
  ++ dq ++
  ">How to use it:</h2>
        <div style="
  ++ dq ++
  "background-color: #fff; border: 1px solid #e0e0e0; padding: 20px; border-radius: 8px; display: inline-block; text-align: left; max-width: 600px; margin: 20px auto;"
  ++ dq ++
  ">
            <p><strong>Endpoint:</strong> <code>".

(** The text of [welcome_message] after the interpolated endpoint. *)
Definition page_tail : string :=
  "</code></p>
            <p><strong>Method:</strong> <code>POST</code></p>
            <p><strong>Content-Type:</strong> <code>application/json</code></p>
            <p><strong>Body (JSON example):</strong></p>
            <pre style="
  ++ dq ++
  "background-color: #eee; padding: 15px; border-radius: 5px; overflow-x: auto; font-family: monospace; font-size: 0.9em; white-space: pre-wrap; word-wrap: break-word;"
  ++ dq ++
  "><code>{
    "
  ++ dq ++
  "Time_spent_Alone"
  ++ dq ++
  ": 7.0,
    "
  ++ dq ++
  "Stage_fear"
  ++ dq ++
  ": "
  ++ dq ++
  "No"
  ++ dq ++
  ",
    "
  ++ dq ++
  "Social_event_attendance"
  ++ dq ++
  ": 2.0,
    "
  ++ dq ++
  "Going_outside"
  ++ dq ++
  ": 1.0,
    "
  ++ dq ++
  "Drained_after_socializing"
  ++ dq ++
  ": "
  ++ dq ++
  "Yes"
  ++ dq ++
  ",
    "
  ++ dq ++
  "Friends_circle_size"
  ++ dq ++
  ": 2.0,
    "
  ++ dq ++
  "Post_frequency"
  ++ dq ++
  ": 1.0
}</code></pre>
            <p style="
  ++ dq ++
  "margin-top: 15px; font-size: 0.9em; color: #777;"
  ++ dq ++
  ">
                (Use the URL you see in your browser's address bar for the base host!)
            </p>
        </div>
        <p style="
  ++ dq ++
  "font-size: 0.9em; color: #777; margin-top: 20px;"
  ++ dq ++
  ">
            You can use tools like <code>curl</code> (in terminal), Postman, or Python's <code>requests</code> library to send the POST request.
        </p>
    </div>
    ".

(** The f-string: the endpoint is the URL root followed by [predict]. *)
Definition welcome_message (api_host : string) : string :=
  let predict_endpoint := api_host ++ "predict" in
  page_head ++ predict_endpoint ++ page_tail.

(** *** Template rendering

    [render_template_string] compiles its argument as a Jinja template.  The
    lexer first rewrites every line end to a line feed and drops one final
    line end, then splits the source into literal text and tags.  Literal
    text is output as it is and a comment [{# ... #}] is dropped; an
    unfinished comment is a [TemplateSyntaxError].  Variable tags, block tags
    and comments that trim white space are left to [jinja_tag], which gets
    the literal text since the last tag and the source from the tag on. *)

Fixpoint unify_newlines (t : string) : string :=
  match t with
  | EmptyString => EmptyString
  | String a r =>
      if Ascii.eqb a CR then
        match r with
        | String b r' =>
            if Ascii.eqb b LF then String LF (unify_newlines r')
            else String LF (unify_newlines r)
        | EmptyString => String LF EmptyString
        end
      else String a (unify_newlines r)
  end.

Fixpoint drop_final_newline (t : string) : string :=
  match t with
  | EmptyString => EmptyString
  | String a EmptyString => if Ascii.eqb a LF then EmptyString else t
  | String a r => String a (drop_final_newline r)
  end.

Definition flush (seg : list ascii) : string := string_of_list_ascii (rev seg).

Definition prepend (s : string) (r : result string) : result string :=
  match r with
  | Ok x => Ok (s ++ x)
  | Raise e => Raise e
  end.

Definition missing_comment_end : exn :=
  mkExn TemplateSyntaxError "Missing end of comment tag".

Section Templates.
Context {lib : PyLib}.

(** [seg] holds, last character first, the literal text read since the last
    tag. *)
Fixpoint lex (in_comment : bool) (seg : list ascii) (t : string) {struct t}
  : result string :=
  match t with
  | EmptyString => if in_comment then Raise missing_comment_end else Ok (flush seg)
  | String a r =>
      if in_comment then
        match r with
        | String b r1 =>
            if (Ascii.eqb a "#" && Ascii.eqb b "}")%bool then lex false [] r1
            else
              match r1 with
              | String c r2 =>
                  if (Ascii.eqb b "#" && Ascii.eqb c "}")%bool then
                    if Ascii.eqb a "-" then jinja_tag "" t
                    else if Ascii.eqb a "+" then lex false [] r2
                    else lex true [] r
                  else lex true [] r
              | EmptyString => lex true [] r
              end
        | EmptyString => lex true [] r
        end
      else if Ascii.eqb a "{" then
        match r with
        | String b r1 =>
            if (Ascii.eqb b "{" || Ascii.eqb b "%")%bool then jinja_tag (flush seg) t
            else if Ascii.eqb b "#" then
              match r1 with
              | String c r2 =>
                  if Ascii.eqb c "-" then jinja_tag (flush seg) t
                  else if Ascii.eqb c "+" then prepend (flush seg) (lex true [] r2)
                  else prepend (flush seg) (lex true [] r1)
              | EmptyString => prepend (flush seg) (lex true [] r1)
              end
            else lex false (a :: seg) r
        | EmptyString => lex false (a :: seg) r
        end
      else lex false (a :: seg) r
  end.

Definition render_template_string (source : string) : result string :=
  lex false [] (drop_final_newline (unify_newlines source)).

Definition home (req : request) : M response :=
  let api_host := url_root req in
  html <- lift (render_template_string (welcome_message api_host)) ;;
  ret {| status := 200; body := Html html |}.

End Templates.

(** ** The application *)

(** The page werkzeug writes for [InternalServerError]. *)
Definition internal_server_error_page : string :=
  "<!doctype html>
<html lang=en>
<title>500 Internal Server Error</title>
<h1>Internal Server Error</h1>
<p>The server encountered an internal error and was unable to complete your request. Either the server is overloaded or there is an error in the application.</p>
".

(** Flask's answer when a view raises. *)
Definition internal_server_error : response :=
  {| status := 500; body := Html internal_server_error_page |}.

(** A view's return value is the response; an exception that leaves the view
    becomes Flask's own 500 page. *)
Definition dispatch (view : M response) : response * list event :=
  match view with
  | (Ok r, t) => (r, t)
  | (Raise _, t) => (internal_server_error, t)
  end.

Inductive http_request : Type :=
| GET_root (req : request)
| POST_predict (req : request).

Definition serve {lib : PyLib} (st : server_state) (r : http_request)
  : response * list event :=
  match r with
  | GET_root req => dispatch (home req)
  | POST_predict req => dispatch (predict st req)
  end.

(** [needle in hay] *)
Definition contains (needle hay : string) : Prop :=
  exists before after, hay = before ++ needle ++ after.

(** [needle in hay], computed. *)
Fixpoint infixb (needle hay : string) : bool :=
  (String.prefix needle hay
   || match hay with
      | EmptyString => false
      | String _ r => infixb needle r
      end)%bool.

(** [x in s] for a character. *)
Fixpoint has_char (x : ascii) (s : string) : bool :=
  match s with
  | EmptyString => false
  | String a r => (Ascii.eqb a x || has_char x r)%bool
  end.

(** No place of [t] starts a tag: no brace is followed by a brace, a percent
    sign or a hash. *)
Fixpoint tagfree (t : string) : bool :=
  match t with
  | EmptyString => true
  | String a r =>
      if Ascii.eqb a "{" then
        match r with
        | String b _ =>
            if (Ascii.eqb b "{" || Ascii.eqb b "%" || Ascii.eqb b "#")%bool
            then false else tagfree r
        | EmptyString => true
        end
      else tagfree r
  end.

(** ** An instance of the library interface, to run the handlers on examples

    Strings without quotes or escapes are quoted as Python does and a wide
    int is rounded to the nearest float; the other functions are fixed
    answers, used where the example does not reach them or where any answer
    does.  [sample_lib] turns every float cell into text, as pandas 2 does;
    [pandas3_lib] keeps NaN as a missing value. *)
Definition sample_float_text (f : float) : string :=
  if PrimFloat.is_nan f then "nan" else "1.0".

Definition nearest_float (z : Z) : float :=
  FloatOps.SF2Prim (SpecFloat.binary_normalize 53 1024 z 0 false).

Definition sample_lib : PyLib := {|
  float_str := fun _ => "nan";
  str_repr := fun s => "'" ++ s ++ "'";
  parse_number := fun _ => None;
  jinja_tag := fun _ _ => Raise (mkExn TemplateSyntaxError "unexpected tag");
  astype_str_float := fun f => Some (sample_float_text f);
  wide_int_to_float := fun z => Ok (nearest_float z);
  setdiff_str := fun _ _ => "[7]"
|}.

Definition pandas3_lib : PyLib := {|
  float_str := sample_float_text;
  str_repr := fun s => "'" ++ s ++ "'";
  parse_number := fun _ => None;
  jinja_tag := fun _ _ => Raise (mkExn TemplateSyntaxError "unexpected tag");
  astype_str_float := fun f =>
    if PrimFloat.is_nan f then None else Some (sample_float_text f);
  wide_int_to_float := fun z => Ok (nearest_float z);
  setdiff_str := fun _ _ => "[7]"
|}.

(** A classifier that answers class 0 for every frame, an encoder with the
    two classes of the service, and the state in which both are loaded. *)
Definition sample_model : classifier := {| clf_predict := fun _ => Ok [0] |}.
Definition sample_encoder : label_encoder :=
  {| classes_ := ["Extrovert"; "Introvert"] |}.
Definition sample_state : server_state :=
  {| loaded_model := Some sample_model;
     loaded_le_personality := Some sample_encoder |}.

Definition sample_url : string := "http://localhost:5000/".

(** A request whose [get_json] gives [parsed]. *)
Definition request_with (parsed : result pyval) : request :=
  {| url_root := sample_url; get_json := parsed |}.

(** The state in which nothing is loaded, and a disk without the [models/]
    directory. *)
Definition unloaded_state : server_state :=
  {| loaded_model := None; loaded_le_personality := None |}.

Definition no_such_file (path : string) : exn :=
  mkExn FileNotFoundError
    ("[Errno 2] No such file or directory: '" ++ path ++ "'").

Definition empty_disk : disk :=
  {| load_model_file := Raise (no_such_file MODEL_PATH);
     load_encoder_file := Raise (no_such_file LABEL_ENCODER_PATH) |}.

(** A classifier that refuses a frame with a missing number. *)
Definition strict_model : classifier :=
  {| clf_predict := fun row =>
       if existsb (fun kv => match snd kv with
                             | PFloat f => negb (PrimFloat.eqb f f)
                             | _ => false
                             end) row
       then Raise (mkExn ValueError "Input contains NaN")
       else Ok [0] |}.

Definition strict_state : server_state :=
  {| loaded_model := Some strict_model;
     loaded_le_personality := Some sample_encoder |}.

(** ** Names for what the handler computes *)

Section Derived.
Context {lib : PyLib}.

(** Lines 104 to 119 of [predict] as one computation on the parsed body. *)
Definition feature_vector (request_data : pyval) : M frame :=
  input_df <- input_features request_data ;;
  lift (normalize input_df).

(** The line [predict] prints once the body is parsed. *)
Definition received_line (v : pyval) : event :=
  EvPrint ("Received prediction request with raw data: " ++ py_str v).

(** What the first loop makes of a categorical column that held [v]: a cell,
    or the exception of the lambda. *)
Definition categorical_cell (v : pyval) : result pyval :=
  match v with
  | PNone => Ok (PInt 0)
  | _ => apply_yes_no (astype_str v)
  end.

(** The row the two loops build from the cells [cat] and [num] give for the
    columns, in the order in which the loops reach them: the first cell that
    raises ends the normalisation. *)
Definition frame_row (cat num : string -> result pyval) : result frame :=
  rbind (cat "Stage_fear") (fun stage_fear =>
  rbind (cat "Drained_after_socializing") (fun drained =>
  rbind (num "Time_spent_Alone") (fun alone =>
  rbind (num "Social_event_attendance") (fun attendance =>
  rbind (num "Going_outside") (fun outside =>
  rbind (num "Friends_circle_size") (fun friends =>
  rbind (num "Post_frequency") (fun posts =>
  Ok [ ("Time_spent_Alone", alone);
       ("Stage_fear", stage_fear);
       ("Social_event_attendance", attendance);
       ("Going_outside", outside);
       ("Drained_after_socializing", drained);
       ("Friends_circle_size", friends);
       ("Post_frequency", posts) ]))))))).

(** The normalised row for a record read through [get]. *)
Definition feature_row (get : string -> pyval) : result frame :=
  frame_row (fun col => categorical_cell (get col))
            (fun col => to_numeric (get col)).

(** Where in the [try] block an exception comes from. *)
Inductive raised_in_try (model : classifier) (le : label_encoder) (req : request)
  : exn -> Prop :=
| raised_parsing e :
    get_json req = Raise e ->
    raised_in_try model le req e
| raised_normalizing v e t :
    get_json req = Ok v ->
    feature_vector v = (Raise e, t) ->
    raised_in_try model le req e
| raised_inference v row t e :
    get_json req = Ok v ->
    feature_vector v = (Ok row, t) ->
    clf_predict model row = Raise e ->
    raised_in_try model le req e
| raised_decoding v row t codes e :
    get_json req = Ok v ->
    feature_vector v = (Ok row, t) ->
    clf_predict model row = Ok codes ->
    inverse_transform le codes = Raise e ->
    raised_in_try model le req e
| raised_indexing v row t codes labels e :
    get_json req = Ok v ->
    feature_vector v = (Ok row, t) ->
    clf_predict model row = Ok codes ->
    inverse_transform le codes = Ok labels ->
    index0 labels = Raise e ->
    raised_in_try model le req e.

End Derived.

(** The row in which every numeric field is missing and both categorical
    fields are 0. *)
Definition missing_row : frame :=
  [ ("Time_spent_Alone", NaN);
    ("Stage_fear", PInt 0);
    ("Social_event_attendance", NaN);
    ("Going_outside", NaN);
    ("Drained_after_socializing", PInt 0);
    ("Friends_circle_size", NaN);
    ("Post_frequency", NaN) ].

(** Events other than a call of the classifier. *)
Definition not_a_predict_event (ev : event) : Prop :=
  match ev with
  | EvPredict _ => False
  | _ => True
  end.

(** [k in v] for a parsed body: only a dict has fields. *)
Definition has_field (v : pyval) (k : string) : bool :=
  match v with
  | PDict items => match lookup items k with Some _ => true | None => false end
  | _ => false
  end.

Definition is_dict (v : pyval) : bool :=
  match v with
  | PDict _ => true
  | _ => false
  end.

(** The eight spellings of [yes]. *)
Definition yes_spellings : list string :=
  [ "yes"; "yeS"; "yEs"; "yES"; "Yes"; "YeS"; "YEs"; "YES" ].

(** ** Names for the statements about the whole handler *)

(** A cell that holds a number: an int, a float or a boolean. *)
Definition is_number_cell (v : pyval) : bool :=
  match v with
  | PInt _ => true
  | PFloat _ => true
  | PBool _ => true
  | _ => false
  end.

(** The number of calls of the classifier recorded in a trace. *)
Fixpoint count_predict (t : list event) : nat :=
  match t with
  | [] => 0%nat
  | EvPredict _ :: r => S (count_predict r)
  | _ :: r => count_predict r
  end.

(** The number of calls of [get_json] recorded in a trace. *)
Fixpoint count_parse (t : list event) : nat :=
  match t with
  | [] => 0%nat
  | EvParse :: r => S (count_parse r)
  | _ :: r => count_parse r
  end.

(** A response of [predict]: one of its two JSON objects. *)
Definition prediction_response (label : string) : response :=
  {| status := 200; body := Json (PDict [("prediction", PStr label)]) |}.

Definition error_response (message : string) : response :=
  {| status := 500; body := Json (PDict [("error", PStr message)]) |}.

(** The line the [except] block prints. *)
Definition error_line (e : exn) : event :=
  EvPrint ("Error during prediction: " ++ exn_text e).

Definition no_get (v : pyval) : exn :=
  mkExn AttributeError ("'" ++ type_name v ++ "' object has no attribute 'get'").

Definition no_first_label : exn :=
  mkExn IndexError "index 0 is out of bounds for axis 0 with size 0".

Section Outcomes.
Context {lib : PyLib}.

(** What the loops make of a column of a frame, whether the frame has the
    column or not. *)
Definition categorical_of (df : frame) (col : string) : result pyval :=
  match lookup df col with
  | Some v => categorical_cell v
  | None => Ok (PInt 0)
  end.

Definition numeric_of (df : frame) (col : string) : result pyval :=
  match lookup df col with
  | Some v => to_numeric v
  | None => Ok PNone
  end.

(** The seven ways a request to [predict] ends once the artifacts are
    loaded: the response and the trace, by what the body, the normalisation,
    the classifier and the encoder do. *)
Inductive predict_outcome (model : classifier) (le : label_encoder) (req : request)
  : response -> list event -> Prop :=
| outcome_bad_body e :
    get_json req = Raise e ->
    predict_outcome model le req
      (error_response (internal_error_prefix ++ exn_text e))
      [EvParse; error_line e]
| outcome_not_object v :
    get_json req = Ok v ->
    is_dict v = false ->
    predict_outcome model le req
      (error_response (internal_error_prefix ++ exn_text (no_get v)))
      [EvParse; received_line v; error_line (no_get v)]
| outcome_cell_raised items e :
    get_json req = Ok (PDict items) ->
    feature_row (dict_get items) = Raise e ->
    predict_outcome model le req
      (error_response (internal_error_prefix ++ exn_text e))
      [EvParse; received_line (PDict items); error_line e]
| outcome_classifier_raised items row e :
    get_json req = Ok (PDict items) ->
    feature_row (dict_get items) = Ok row ->
    clf_predict model row = Raise e ->
    predict_outcome model le req
      (error_response (internal_error_prefix ++ exn_text e))
      [EvParse; received_line (PDict items); EvPredict row; error_line e]
| outcome_unknown_code items row codes :
    get_json req = Ok (PDict items) ->
    feature_row (dict_get items) = Ok row ->
    clf_predict model row = Ok codes ->
    forallb (known_code le) codes = false ->
    predict_outcome model le req
      (error_response (internal_error_prefix ++ exn_text (unseen_labels le codes)))
      [EvParse; received_line (PDict items); EvPredict row; EvDecode codes;
       error_line (unseen_labels le codes)]
| outcome_no_code items row :
    get_json req = Ok (PDict items) ->
    feature_row (dict_get items) = Ok row ->
    clf_predict model row = Ok [] ->
    predict_outcome model le req
      (error_response (internal_error_prefix ++ exn_text no_first_label))
      [EvParse; received_line (PDict items); EvPredict row; EvDecode [];
       error_line no_first_label]
| outcome_label items row c rest :
    get_json req = Ok (PDict items) ->
    feature_row (dict_get items) = Ok row ->
    clf_predict model row = Ok (c :: rest) ->
    forallb (known_code le) (c :: rest) = true ->
    predict_outcome model le req
      (prediction_response (nth (Z.to_nat c) (classes_ le) ""))
      [EvParse; received_line (PDict items); EvPredict row; EvDecode (c :: rest)].

End Outcomes.

(** The body [{"Stage_fear": NaN}], which [json.loads] accepts. *)
Definition nan_body : pyval := PDict [("Stage_fear", PFloat nan)].

(** A classifier that answers a code no encoder of two classes knows. *)
Definition wild_model : classifier := {| clf_predict := fun _ => Ok [7] |}.

Definition bad_request : exn :=
  mkExn BadRequest "400 Bad Request: The browser (or proxy) sent a request that this server could not understand.".

(** ** The script entry point

    [int(s)] for a string: white space around, an optional sign, then decimal
    digits in which single underscores may separate digits.  That is written
    out for ASCII text of at most 4300 characters; on other text (digits and
    white space of other scripts, the length limit of recent interpreters)
    the answer is [int_of_text]. *)
Class PyIntLib : Type := {
  int_of_text : string -> result Z
}.

(** C's [isspace] on ASCII: tab, line feed, vertical tab, form feed,
    carriage return and space. *)
Definition is_c_space (a : ascii) : bool :=
  let n := nat_of_ascii a in
  ((Nat.leb 9 n && Nat.leb n 13) || Nat.eqb n 32)%bool.

Definition digit_value (a : ascii) : option Z :=
  let n := nat_of_ascii a in
  if (Nat.leb 48 n && Nat.leb n 57)%bool then Some (Z.of_nat (n - 48)) else None.

Fixpoint skip_spaces (s : string) : string :=
  match s with
  | EmptyString => EmptyString
  | String a r => if is_c_space a then skip_spaces r else s
  end.

(** The digits from [s] on, with [acc] the value read so far; [after_us] says
    that the last character read was an underscore.  The scan stops at the
    first character that is neither a digit nor an underscore; an underscore
    that does not stand between two digits is an error. *)
Fixpoint scan_digits (after_us : bool) (acc : Z) (s : string) : option (Z * string) :=
  match s with
  | EmptyString => if after_us then None else Some (acc, EmptyString)
  | String a r =>
      match digit_value a with
      | Some d => scan_digits false (10 * acc + d) r
      | None =>
          if Ascii.eqb a "_" then
            if after_us then None else scan_digits true acc r
          else if after_us then None else Some (acc, s)
      end
  end.

(** The sign in front of the digits, and the text after it. *)
Definition read_sign (s : string) : bool * string :=
  match s with
  | String a r =>
      if Ascii.eqb a "-" then (true, r)
      else if Ascii.eqb a "+" then (false, r)
      else (false, s)
  | EmptyString => (false, s)
  end.

Definition starts_with_digit (s : string) : bool :=
  match s with
  | String a _ => match digit_value a with Some _ => true | None => false end
  | EmptyString => false
  end.

Definition parse_int_ascii (s : string) : option Z :=
  let (negative, digits) := read_sign (skip_spaces s) in
  if starts_with_digit digits then
    match scan_digits false 0 digits with
    | Some (v, rest) =>
        match skip_spaces rest with
        | EmptyString => Some (if negative then - v else v)
        | String _ _ => None
        end
    | None => None
    end
  else None.

Fixpoint is_ascii_text (s : string) : bool :=
  match s with
  | EmptyString => true
  | String a r => (Nat.ltb (nat_of_ascii a) 128 && is_ascii_text r)%bool
  end.

(** The [ValueError] of [int]: the text shows at most the first 200
    characters of the quoted string. *)
Definition invalid_literal {lib : PyLib} (s : string) : exn :=
  mkExn ValueError
    ("invalid literal for int() with base 10: " ++ substring 0 200 (str_repr s)).

(** [int(s)] *)
Definition int_of_str {lib : PyLib} {il : PyIntLib} (s : string) : result Z :=
  if (is_ascii_text s && Nat.leb (String.length s) 4300)%bool then
    match parse_int_ascii s with
    | Some z => Ok z
    | None => Raise (invalid_literal s)
    end
  else int_of_text s.

(** [os.environ] *)
Definition environ : Type := string -> option string.

(** How the block under [if __name__ == '__main__'] ends: at the call
    [app.run(host, port, debug)], or with the exception that [int] raised. *)
Inductive main_result : Type :=
| AppRun (host : string) (port : Z) (debug : bool)
| MainRaised (e : exn).

(** [int(os.environ.get('PORT', 5000))] *)
Definition port_of {lib : PyLib} {il : PyIntLib} (env : environ) : result Z :=
  match env "PORT" with
  | Some s => int_of_str s
  | None => Ok 5000
  end.

Definition main {lib : PyLib} {il : PyIntLib} (env : environ)
  : main_result * list event :=
  match port_of env with
  | Ok port =>
      (AppRun "0.0.0.0" port false,
       [EvPrint ("Flask app starting on port " ++ int_str port)])
  | Raise e => (MainRaised e, [])
  end.

(** The module run as a script: the loader, then the entry point. *)
Definition script {lib : PyLib} {il : PyIntLib} (d : disk) (env : environ)
  : server_state * main_result * list event :=
  let (st, loading) := startup d in
  let (res, starting) := main env in
  (st, res, (loading ++ starting)%list).

Definition sample_int_lib : PyIntLib :=
  {| int_of_text := fun _ => Raise (mkExn ValueError "invalid literal for int()") |}.

(** An environment in which only [PORT] is set. *)
Definition env_port (value : string) : environ :=
  fun name => if String.eqb name "PORT" then Some value else None.

Definition env_empty : environ := fun _ => None.

(** A word of 300 letters. *)
Definition long_word : string := string_of_list_ascii (repeat "a"%char 300).

(** A disk on which both artifacts load. *)
Definition full_disk : disk :=
  {| load_model_file := Ok sample_model; load_encoder_file := Ok sample_encoder |}.

(** The value of the decimal digits [d] read after the value [acc]. *)
Fixpoint decimal_value (d : Decimal.uint) (acc : Z) : Z :=
  match d with
  | Decimal.Nil => acc
  | Decimal.D0 d => decimal_value d (10 * acc)
  | Decimal.D1 d => decimal_value d (10 * acc + 1)
  | Decimal.D2 d => decimal_value d (10 * acc + 2)
  | Decimal.D3 d => decimal_value d (10 * acc + 3)
  | Decimal.D4 d => decimal_value d (10 * acc + 4)
  | Decimal.D5 d => decimal_value d (10 * acc + 5)
  | Decimal.D6 d => decimal_value d (10 * acc + 6)
  | Decimal.D7 d => decimal_value d (10 * acc + 7)
  | Decimal.D8 d => decimal_value d (10 * acc + 8)
  | Decimal.D9 d => decimal_value d (10 * acc + 9)
  end.

(** Some character of [s] is a decimal digit. *)
Fixpoint has_digit (s : string) : bool :=
  match s with
  | EmptyString => false
  | String a r =>
      (match digit_value a with Some _ => true | None => false end
       || has_digit r)%bool
  end.

(** A disk on which the classifier loads and the encoder file is corrupt. *)
Definition half_disk : disk :=
  {| load_model_file := Ok sample_model;
     load_encoder_file := Raise (mkExn (OtherException "EOFError") "Ran out of input") |}.

(** The two lines printed when both artifacts load. *)
Definition success_lines : list event :=
  [ EvPrint ("Model loaded successfully from " ++ MODEL_PATH);
    EvPrint ("Label Encoder loaded successfully from " ++ LABEL_ENCODER_PATH) ].

(** Some place of [t] holds the end of a template comment, a hash followed
    by a closing brace. *)
Fixpoint has_comment_end (t : string) : bool :=
  match t with
  | EmptyString => false
  | String a r =>
      (match r with
       | String b _ => Ascii.eqb a "#" && Ascii.eqb b "}"
       | EmptyString => false
       end
       || has_comment_end r)%bool
  end.

(** The characters of a string, last one first. *)
Fixpoint rev_chars (s : string) (acc : list ascii) : list ascii :=
  match s with
  | EmptyString => acc
  | String a r => rev_chars r (a :: acc)
  end.

(** ** Properties of the embedding *)

(** *** Frames *)

Lemma lookup_set_column df col v col' :
  lookup (set_column df col v) col'
  = if String.eqb col col' then Some v else lookup df col'.
Proof.
  induction df as [|[c x] r IH]; simpl.
  - now destruct (String.eqb col col').
  - destruct (String.eqb_spec c col) as [->|Hc]; simpl.
    + now destruct (String.eqb col col').
    + destruct (String.eqb_spec c col') as [->|Hc'].
      * destruct (String.eqb_spec col col') as [->|]; [contradiction | reflexivity].
      * exact IH.
Qed.

Lemma has_column_lookup df col :
  has_column df col = match lookup df col with Some _ => true | None => false end.
Proof.
  induction df as [|[c x] r IH]; simpl; [reflexivity|].
  destruct (String.eqb c col); [reflexivity | exact IH].
Qed.

Lemma lookup_set_column_other df col v col' :
  String.eqb col col' = false ->
  lookup (set_column df col v) col' = lookup df col'.
Proof. intros H. now rewrite lookup_set_column, H. Qed.

Section Normalizer_facts.
Context {lib : PyLib}.

Lemma bind_assoc {A B C} (m : M A) (f : A -> M B) (g : B -> M C) :
  bind (bind m f) g = bind m (fun a => bind (f a) g).
Proof.
  destruct m as [[a|e] t]; simpl; [|reflexivity].
  destruct (f a) as [[b|e] t1]; simpl; [|reflexivity].
  destruct (g b) as [r t2]. now rewrite app_assoc.
Qed.

Lemma input_features_dict items :
  input_features (PDict items)
  = (Ok (map (fun f => (f, dict_get items f)) expected_feature_order), []).
Proof. reflexivity. Qed.

Lemma input_features_not_dict v :
  is_dict v = false ->
  input_features v
  = (Raise (mkExn AttributeError
              ("'" ++ type_name v ++ "' object has no attribute 'get'")), []).
Proof. destruct v; simpl; intros H; try discriminate; reflexivity. Qed.

Lemma normalize_categorical_of df col :
  normalize_categorical df col
  = rbind (categorical_of df col) (fun cell => Ok (set_column df col cell)).
Proof.
  unfold normalize_categorical, categorical_of, iloc0, dict_get.
  rewrite has_column_lookup.
  destruct (lookup df col) as [v|]; [|reflexivity].
  destruct v; reflexivity.
Qed.

Lemma normalize_numeric_of df col :
  normalize_numeric df col
  = rbind (numeric_of df col) (fun cell => Ok (set_column df col cell)).
Proof.
  unfold normalize_numeric, numeric_of, iloc0, dict_get.
  rewrite has_column_lookup.
  now destruct (lookup df col).
Qed.

Lemma categorical_of_set_column df col v col' :
  String.eqb col col' = false ->
  categorical_of (set_column df col v) col' = categorical_of df col'.
Proof. intros H. unfold categorical_of. now rewrite lookup_set_column_other. Qed.

Lemma numeric_of_set_column df col v col' :
  String.eqb col col' = false ->
  numeric_of (set_column df col v) col' = numeric_of df col'.
Proof. intros H. unfold numeric_of. now rewrite lookup_set_column_other. Qed.

Ltac next_cell c :=
  rewrite ?normalize_categorical_of, ?normalize_numeric_of;
  rewrite ?categorical_of_set_column, ?numeric_of_set_column by reflexivity;
  destruct c; cbn [rbind fold_result]; [|reflexivity].

(** The two loops and the selection, on any frame, as one row of cells. *)
Lemma normalize_frame_row (df : frame) :
  normalize df = frame_row (categorical_of df) (numeric_of df).
Proof.
  unfold normalize, frame_row, categorical_columns, numeric_columns.
  cbn [fold_result].
  next_cell (categorical_of df "Stage_fear").
  next_cell (categorical_of df "Drained_after_socializing").
  next_cell (numeric_of df "Time_spent_Alone").
  next_cell (numeric_of df "Social_event_attendance").
  next_cell (numeric_of df "Going_outside").
  next_cell (numeric_of df "Friends_circle_size").
  next_cell (numeric_of df "Post_frequency").
  unfold expected_feature_order. cbn [select].
  repeat (rewrite !lookup_set_column; cbn [String.eqb Ascii.eqb Bool.eqb]).
  reflexivity.
Qed.

End Normalizer_facts.

(** *** The row of cells *)

Lemma frame_row_ok cat num row :
  frame_row cat num = Ok row ->
  exists stage_fear drained alone attendance outside friends posts,
    cat "Stage_fear" = Ok stage_fear
    /\ cat "Drained_after_socializing" = Ok drained
    /\ num "Time_spent_Alone" = Ok alone
    /\ num "Social_event_attendance" = Ok attendance
    /\ num "Going_outside" = Ok outside
    /\ num "Friends_circle_size" = Ok friends
    /\ num "Post_frequency" = Ok posts
    /\ row = [ ("Time_spent_Alone", alone);
               ("Stage_fear", stage_fear);
               ("Social_event_attendance", attendance);
               ("Going_outside", outside);
               ("Drained_after_socializing", drained);
               ("Friends_circle_size", friends);
               ("Post_frequency", posts) ].
Proof.
  unfold frame_row.
  destruct (cat "Stage_fear") as [x1|]; [|discriminate].
  destruct (cat "Drained_after_socializing") as [x2|]; [|discriminate].
  destruct (num "Time_spent_Alone") as [x3|]; [|discriminate].
  destruct (num "Social_event_attendance") as [x4|]; [|discriminate].
  destruct (num "Going_outside") as [x5|]; [|discriminate].
  destruct (num "Friends_circle_size") as [x6|]; [|discriminate].
  destruct (num "Post_frequency") as [x7|]; [|discriminate].
  cbn [rbind]. intros H. injection H as <-.
  exists x1, x2, x3, x4, x5, x6, x7. repeat split; reflexivity.
Qed.

Lemma frame_row_raise cat num e :
  frame_row cat num = Raise e ->
  (exists col, In col categorical_columns /\ cat col = Raise e)
  \/ (exists col, In col numeric_columns /\ num col = Raise e).
Proof.
  unfold frame_row, categorical_columns, numeric_columns.
  destruct (cat "Stage_fear") as [x1|e1] eqn:H1; cbn [rbind].
  2:{ intros H. injection H as <-. left. eexists. split; [|exact H1]. simpl; auto. }
  destruct (cat "Drained_after_socializing") as [x2|e2] eqn:H2; cbn [rbind].
  2:{ intros H. injection H as <-. left. eexists. split; [|exact H2]. simpl; auto. }
  destruct (num "Time_spent_Alone") as [x3|e3] eqn:H3; cbn [rbind].
  2:{ intros H. injection H as <-. right. eexists. split; [|exact H3]. simpl; auto. }
  destruct (num "Social_event_attendance") as [x4|e4] eqn:H4; cbn [rbind].
  2:{ intros H. injection H as <-. right. eexists. split; [|exact H4]. simpl; auto. }
  destruct (num "Going_outside") as [x5|e5] eqn:H5; cbn [rbind].
  2:{ intros H. injection H as <-. right. eexists. split; [|exact H5]. simpl; auto. }
  destruct (num "Friends_circle_size") as [x6|e6] eqn:H6; cbn [rbind].
  2:{ intros H. injection H as <-. right. eexists. split; [|exact H6]. simpl; auto 10. }
  destruct (num "Post_frequency") as [x7|e7] eqn:H7; cbn [rbind].
  2:{ intros H. injection H as <-. right. eexists. split; [|exact H7]. simpl; auto 10. }
  discriminate.
Qed.

Lemma frame_row_all_ok cat num :
  (forall col, In col categorical_columns -> exists x, cat col = Ok x) ->
  (forall col, In col numeric_columns -> exists x, num col = Ok x) ->
  exists row, frame_row cat num = Ok row.
Proof.
  intros Hc Hn.
  destruct (frame_row cat num) as [row|e] eqn:H; [now exists row|].
  destruct (frame_row_raise cat num e H) as [(col & Hin & Hr)|(col & Hin & Hr)].
  - destruct (Hc col Hin) as [x Hx]. rewrite Hx in Hr. discriminate Hr.
  - destruct (Hn col Hin) as [x Hx]. rewrite Hx in Hr. discriminate Hr.
Qed.

Lemma frame_row_ext cat num cat' num' :
  (forall col, In col categorical_columns -> cat' col = cat col) ->
  (forall col, In col numeric_columns -> num' col = num col) ->
  frame_row cat' num' = frame_row cat num.
Proof.
  intros Hc Hn. unfold frame_row.
  rewrite !Hc by (unfold categorical_columns; simpl; auto).
  rewrite !Hn by (unfold numeric_columns; simpl; auto 10).
  reflexivity.
Qed.

Lemma frame_row_columns cat num row :
  frame_row cat num = Ok row -> map fst row = expected_feature_order.
Proof.
  intros H. apply frame_row_ok in H.
  destruct H as (x1 & x2 & x3 & x4 & x5 & x6 & x7 & _ & _ & _ & _ & _ & _ & _ & ->).
  reflexivity.
Qed.

Lemma frame_row_lookup_categorical cat num row col :
  frame_row cat num = Ok row ->
  In col categorical_columns ->
  exists cell, cat col = Ok cell /\ lookup row col = Some cell.
Proof.
  intros H Hin. apply frame_row_ok in H.
  destruct H as (x1 & x2 & x3 & x4 & x5 & x6 & x7
                 & H1 & H2 & _ & _ & _ & _ & _ & ->).
  destruct Hin as [<-|[<-|[]]]; eexists; (split; [eassumption | reflexivity]).
Qed.

Lemma frame_row_lookup_numeric cat num row col :
  frame_row cat num = Ok row ->
  In col numeric_columns ->
  exists cell, num col = Ok cell /\ lookup row col = Some cell.
Proof.
  intros H Hin. apply frame_row_ok in H.
  destruct H as (x1 & x2 & x3 & x4 & x5 & x6 & x7
                 & _ & _ & H3 & H4 & H5 & H6 & H7 & ->).
  destruct Hin as [<-|[<-|[<-|[<-|[<-|[]]]]]];
    eexists; (split; [eassumption | reflexivity]).
Qed.

(** *** Strings *)

Lemma append_empty_r (s : string) : s ++ "" = s.
Proof. induction s as [|a s IH]; simpl; [reflexivity | now rewrite IH]. Qed.

Lemma append_assoc (a b c : string) : (a ++ b) ++ c = a ++ b ++ c.
Proof. induction a as [|x a IH]; simpl; [reflexivity | now rewrite IH]. Qed.

Ltac ascii_cases c := destruct c as [[] [] [] [] [] [] [] []].

Lemma lower_ascii_y c : lower_ascii c = "y"%char -> c = "y"%char \/ c = "Y"%char.
Proof. ascii_cases c; vm_compute; intros H; try discriminate H; auto. Qed.

Lemma lower_ascii_e c : lower_ascii c = "e"%char -> c = "e"%char \/ c = "E"%char.
Proof. ascii_cases c; vm_compute; intros H; try discriminate H; auto. Qed.

Lemma lower_ascii_s c : lower_ascii c = "s"%char -> c = "s"%char \/ c = "S"%char.
Proof. ascii_cases c; vm_compute; intros H; try discriminate H; auto. Qed.

Lemma yes_no_values x : yes_no x = 1 \/ yes_no x = 0.
Proof. unfold yes_no. destruct (String.eqb _ _); auto. Qed.

Lemma yes_no_lower x : yes_no x = 1 <-> lower x = "yes".
Proof.
  unfold yes_no. destruct (String.eqb_spec (lower x) "yes") as [E|E]; split;
    intros H; try assumption; try reflexivity; try discriminate; contradiction.
Qed.

(** Comparing the lowered text with [yes] accepts the eight spellings of the
    word and nothing else. *)
Lemma yes_no_spellings x : yes_no x = 1 <-> In x yes_spellings.
Proof.
  rewrite yes_no_lower. split.
  - destruct x as [|a [|b [|c [|d r]]]]; simpl; try discriminate.
    intros H. injection H as Ha Hb Hc.
    apply lower_ascii_y in Ha. apply lower_ascii_e in Hb. apply lower_ascii_s in Hc.
    destruct Ha, Hb, Hc; subst; simpl; auto 10.
  - unfold yes_spellings. simpl.
    intros [H|[H|[H|[H|[H|[H|[H|[H|[]]]]]]]]]; subst; reflexivity.
Qed.

Example int_str_ex : int_str 0 = "0" /\ int_str (-12) = "-12" /\ int_str 7 = "7".
Proof. repeat split; reflexivity. Qed.

(** The text of an int starts with a digit or a sign, never with [y]. *)
Lemma yes_no_int z : yes_no (int_str z) = 0.
Proof.
  unfold int_str.
  destruct z as [|p|p]; simpl; try reflexivity.
  destruct (Pos.to_uint p); reflexivity.
Qed.

Section Feature_facts.
Context {lib : PyLib}.

Lemma feature_vector_dict items :
  feature_vector (PDict items) = (feature_row (dict_get items), []).
Proof.
  unfold feature_vector. rewrite input_features_dict.
  unfold bind, lift. rewrite normalize_frame_row.
  assert (E : frame_row
                (categorical_of
                   (map (fun f => (f, dict_get items f)) expected_feature_order))
                (numeric_of
                   (map (fun f => (f, dict_get items f)) expected_feature_order))
              = feature_row (dict_get items)).
  { apply frame_row_ext.
    - intros col [<-|[<-|[]]]; reflexivity.
    - intros col [<-|[<-|[<-|[<-|[<-|[]]]]]]; reflexivity. }
  rewrite E. now destruct (feature_row (dict_get items)).
Qed.

Lemma feature_vector_not_dict v :
  is_dict v = false ->
  feature_vector v
  = (Raise (mkExn AttributeError
              ("'" ++ type_name v ++ "' object has no attribute 'get'")), []).
Proof.
  intros H. unfold feature_vector. now rewrite input_features_not_dict.
Qed.

(** The row depends on the record only through the seven fields. *)
Lemma feature_row_ext (g g' : string -> pyval) :
  (forall f, In f expected_feature_order -> g' f = g f) ->
  feature_row g' = feature_row g.
Proof.
  intros H. unfold feature_row. apply frame_row_ext.
  - intros col [<-|[<-|[]]]; rewrite H; simpl; auto 10.
  - intros col [<-|[<-|[<-|[<-|[<-|[]]]]]]; rewrite H; simpl; auto 10.
Qed.

(** What a categorical cell can be. *)
Lemma apply_yes_no_bit x cell :
  apply_yes_no x = Ok cell -> cell = PInt 0 \/ cell = PInt 1.
Proof.
  destruct x as [text|]; simpl; [|discriminate].
  intros H. injection H as <-.
  destruct (yes_no_values text) as [-> | ->]; auto.
Qed.

Lemma categorical_cell_bit v cell :
  categorical_cell v = Ok cell -> cell = PInt 0 \/ cell = PInt 1.
Proof.
  destruct v; cbn [categorical_cell]; try (apply apply_yes_no_bit).
  intros H. injection H as <-. now left.
Qed.

(** The lambda raises only on a float that [astype(str)] left as it was. *)
Lemma categorical_cell_raise v e :
  categorical_cell v = Raise e ->
  e = no_lower /\ exists f, v = PFloat f /\ astype_str_float f = None.
Proof.
  destruct v as [| | |f| | |]; simpl; try discriminate.
  destruct (astype_str_float f) eqn:E; simpl; [discriminate|].
  intros H. injection H as <-. split; [reflexivity|]. now exists f.
Qed.

(** A value that is not a float is compared through its text. *)
Lemma categorical_cell_text v :
  (forall f, v <> PFloat f) ->
  categorical_cell v = Ok (PInt (yes_no (py_str v))).
Proof.
  intros Hf. destruct v as [| | |f| | |]; try reflexivity.
  now destruct (Hf f).
Qed.

(** A value that is neither a string nor a float never reads as [yes]. *)
Lemma categorical_cell_other v :
  (forall s, v <> PStr s) -> (forall f, v <> PFloat f) ->
  categorical_cell v = Ok (PInt 0).
Proof.
  intros Hs Hf.
  destruct v as [|[]| z | f | s | l | items];
    try (now destruct (Hf f)); try (now destruct (Hs s));
    cbn [categorical_cell apply_yes_no astype_str py_str py_repr];
    rewrite ?yes_no_int; reflexivity.
Qed.

(** What a numeric cell can be. *)
Lemma to_numeric_is_number v cell :
  to_numeric v = Ok cell -> is_number_cell cell = true.
Proof.
  destruct v as [| |z| |s| |]; simpl; intros H; try (injection H as <-; reflexivity).
  - destruct (in_64_bits z); [injection H as <-; reflexivity|].
    destruct (wide_int_to_float z); simpl in H; [|discriminate].
    injection H as <-. reflexivity.
  - destruct (parse_number s) as [[]|]; injection H as <-; reflexivity.
Qed.

(** [to_numeric] raises only on an int outside the 64-bit ranges, when the
    library fails to turn it into a float. *)
Lemma to_numeric_raise v e :
  to_numeric v = Raise e ->
  exists z, v = PInt z /\ in_64_bits z = false /\ wide_int_to_float z = Raise e.
Proof.
  destruct v as [| |z| |s| |]; simpl; try discriminate.
  - destruct (in_64_bits z) eqn:Hz; [discriminate|].
    destruct (wide_int_to_float z) eqn:Hw; simpl; [discriminate|].
    intros H. injection H as <-. now exists z.
  - destruct (parse_number s); discriminate.
Qed.

Lemma feature_row_ok g row :
  feature_row g = Ok row ->
  exists stage_fear drained alone attendance outside friends posts,
    categorical_cell (g "Stage_fear") = Ok stage_fear
    /\ categorical_cell (g "Drained_after_socializing") = Ok drained
    /\ to_numeric (g "Time_spent_Alone") = Ok alone
    /\ to_numeric (g "Social_event_attendance") = Ok attendance
    /\ to_numeric (g "Going_outside") = Ok outside
    /\ to_numeric (g "Friends_circle_size") = Ok friends
    /\ to_numeric (g "Post_frequency") = Ok posts
    /\ row = [ ("Time_spent_Alone", alone);
               ("Stage_fear", stage_fear);
               ("Social_event_attendance", attendance);
               ("Going_outside", outside);
               ("Drained_after_socializing", drained);
               ("Friends_circle_size", friends);
               ("Post_frequency", posts) ].
Proof. intros H. exact (frame_row_ok _ _ row H). Qed.

Lemma feature_row_raise g e :
  feature_row g = Raise e ->
  (exists col, In col categorical_columns /\ categorical_cell (g col) = Raise e)
  \/ (exists col, In col numeric_columns /\ to_numeric (g col) = Raise e).
Proof. intros H. exact (frame_row_raise _ _ e H). Qed.

Lemma feature_row_all_ok g :
  (forall col, In col categorical_columns -> exists x, categorical_cell (g col) = Ok x) ->
  (forall col, In col numeric_columns -> exists x, to_numeric (g col) = Ok x) ->
  exists row, feature_row g = Ok row.
Proof. intros Hc Hn. exact (frame_row_all_ok _ _ Hc Hn). Qed.

Lemma feature_row_columns g row :
  feature_row g = Ok row -> map fst row = expected_feature_order.
Proof. intros H. exact (frame_row_columns _ _ row H). Qed.

Lemma feature_row_lookup_categorical g row col :
  feature_row g = Ok row ->
  In col categorical_columns ->
  exists cell, categorical_cell (g col) = Ok cell /\ lookup row col = Some cell.
Proof. intros H Hin. exact (frame_row_lookup_categorical _ _ row col H Hin). Qed.

Lemma feature_row_lookup_numeric g row col :
  feature_row g = Ok row ->
  In col numeric_columns ->
  exists cell, to_numeric (g col) = Ok cell /\ lookup row col = Some cell.
Proof. intros H Hin. exact (frame_row_lookup_numeric _ _ row col H Hin). Qed.

Lemma feature_row_numbers g row :
  feature_row g = Ok row ->
  forallb (fun kv => is_number_cell (snd kv)) row = true.
Proof.
  intros H. apply feature_row_ok in H.
  destruct H as (x1 & x2 & x3 & x4 & x5 & x6 & x7
                 & H1 & H2 & H3 & H4 & H5 & H6 & H7 & ->).
  cbn [forallb snd].
  rewrite (to_numeric_is_number _ _ H3), (to_numeric_is_number _ _ H4),
          (to_numeric_is_number _ _ H5), (to_numeric_is_number _ _ H6),
          (to_numeric_is_number _ _ H7).
  destruct (categorical_cell_bit _ _ H1) as [-> | ->],
           (categorical_cell_bit _ _ H2) as [-> | ->]; reflexivity.
Qed.

(** The record without any of the seven fields gives the row of missing
    values. *)
Lemma feature_row_missing items :
  (forall f, In f expected_feature_order -> lookup items f = None) ->
  feature_row (dict_get items) = Ok missing_row.
Proof.
  intros H. unfold feature_row, frame_row, dict_get.
  rewrite !H by (simpl; auto 10). reflexivity.
Qed.

End Feature_facts.

Lemma lookup_permutation (l l' : list (string * pyval)) k :
  NoDup (map fst l) -> Permutation l l' -> lookup l k = lookup l' k.
Proof.
  intros Hnd Hp. induction Hp as [| [k1 v1] l l' Hp IH | [k1 v1] [k2 v2] l | l l' l'' H1 IH1 H2 IH2].
  - reflexivity.
  - simpl in *. inversion Hnd; subst. now rewrite IH.
  - simpl in *. inversion Hnd as [|? ? Hnot _]; subst.
    destruct (String.eqb_spec k2 k), (String.eqb_spec k1 k); subst; try reflexivity.
    exfalso. apply Hnot. now left.
  - rewrite IH1 by assumption. apply IH2.
    eapply Permutation_NoDup; [|exact Hnd]. now apply Permutation_map.
Qed.

(** *** The [try] block, case by case *)

Section Predict_facts.
Context {lib : PyLib}.

Ltac run_try H :=
  unfold predict_try; rewrite H; unfold feature_vector in *; simpl.

Lemma predict_try_parse_error model le req e :
  get_json req = Raise e ->
  predict_try model le req = (Raise e, [EvParse]).
Proof. intros H. run_try H. reflexivity. Qed.

Lemma predict_try_normalize_error model le req v e t :
  get_json req = Ok v ->
  feature_vector v = (Raise e, t) ->
  predict_try model le req = (Raise e, EvParse :: received_line v :: t).
Proof.
  intros H Hf. run_try H.
  destruct (input_features v) as [[df|e'] t']; simpl in *.
  - destruct (normalize df); simpl in *; inversion Hf; subst.
    now rewrite app_nil_r.
  - inversion Hf; subst. reflexivity.
Qed.

Lemma predict_try_inference_error model le req v row t e :
  get_json req = Ok v ->
  feature_vector v = (Ok row, t) ->
  clf_predict model row = Raise e ->
  predict_try model le req
  = (Raise e, ((EvParse :: received_line v :: t) ++ [EvPredict row])%list).
Proof.
  intros H Hf Hp. run_try H.
  destruct (input_features v) as [[df|e'] t']; simpl in *; [|discriminate].
  destruct (normalize df) as [row'|]; simpl in *; inversion Hf; subst.
  rewrite Hp. simpl. now rewrite app_nil_r.
Qed.

Lemma predict_try_decode_error model le req v row t codes e :
  get_json req = Ok v ->
  feature_vector v = (Ok row, t) ->
  clf_predict model row = Ok codes ->
  inverse_transform le codes = Raise e ->
  predict_try model le req
  = (Raise e, ((EvParse :: received_line v :: t) ++ [EvPredict row; EvDecode codes])%list).
Proof.
  intros H Hf Hp Hd. run_try H.
  destruct (input_features v) as [[df|e'] t']; simpl in *; [|discriminate].
  destruct (normalize df) as [row'|]; simpl in *; inversion Hf; subst.
  rewrite Hp. simpl. rewrite Hd. simpl. now rewrite app_nil_r.
Qed.

Lemma predict_try_index_error model le req v row t codes labels e :
  get_json req = Ok v ->
  feature_vector v = (Ok row, t) ->
  clf_predict model row = Ok codes ->
  inverse_transform le codes = Ok labels ->
  index0 labels = Raise e ->
  predict_try model le req
  = (Raise e, ((EvParse :: received_line v :: t) ++ [EvPredict row; EvDecode codes])%list).
Proof.
  intros H Hf Hp Hd Hi. run_try H.
  destruct (input_features v) as [[df|e'] t']; simpl in *; [|discriminate].
  destruct (normalize df) as [row'|]; simpl in *; inversion Hf; subst.
  rewrite Hp. simpl. rewrite Hd. simpl. rewrite Hi. simpl. now rewrite app_nil_r.
Qed.

Lemma predict_try_success model le req v row t codes labels label :
  get_json req = Ok v ->
  feature_vector v = (Ok row, t) ->
  clf_predict model row = Ok codes ->
  inverse_transform le codes = Ok labels ->
  index0 labels = Ok label ->
  predict_try model le req
  = (Ok {| status := 200; body := jsonify1 "prediction" label |},
     ((EvParse :: received_line v :: t) ++ [EvPredict row; EvDecode codes])%list).
Proof.
  intros H Hf Hp Hd Hi. run_try H.
  destruct (input_features v) as [[df|e'] t']; simpl in *; [|discriminate].
  destruct (normalize df) as [row'|]; simpl in *; inversion Hf; subst.
  rewrite Hp. simpl. rewrite Hd. simpl. rewrite Hi. simpl. now rewrite app_nil_r.
Qed.

(** The [try] block ends in a 200 response or in an exception raised at one of
    its stages. *)
Lemma predict_try_cases model le req :
  (exists label t,
      predict_try model le req
      = (Ok {| status := 200; body := jsonify1 "prediction" label |}, t))
  \/ (exists e t,
        raised_in_try model le req e /\ predict_try model le req = (Raise e, t)).
Proof.
  destruct (get_json req) as [v|e] eqn:H.
  2:{ right. exists e, [EvParse]. split; [now apply raised_parsing|].
      now apply predict_try_parse_error. }
  destruct (feature_vector v) as [[row|e] t] eqn:Hf.
  2:{ right. eexists e, _. split; [eapply raised_normalizing; eauto|].
      eapply predict_try_normalize_error; eauto. }
  destruct (clf_predict model row) as [codes|e] eqn:Hp.
  2:{ right. eexists e, _. split; [eapply raised_inference; eauto|].
      eapply predict_try_inference_error; eauto. }
  destruct (inverse_transform le codes) as [labels|e] eqn:Hd.
  2:{ right. eexists e, _. split; [eapply raised_decoding; eauto|].
      eapply predict_try_decode_error; eauto. }
  destruct (index0 labels) as [label|e] eqn:Hi.
  2:{ right. eexists e, _. split; [eapply raised_indexing; eauto|].
      eapply predict_try_index_error; eauto. }
  left. eexists label, _. eapply predict_try_success; eauto.
Qed.

(** An exception has one source: the stages run in order and the first that
    raises ends the block. *)
Lemma raised_in_try_outcome model le req e :
  raised_in_try model le req e ->
  exists t, predict_try model le req = (Raise e, t).
Proof.
  intros [e' H | v e' t H Hf | v row t e' H Hf Hp | v row t codes e' H Hf Hp Hd
          | v row t codes labels e' H Hf Hp Hd Hi]; eexists.
  - now apply predict_try_parse_error.
  - eapply predict_try_normalize_error; eauto.
  - eapply predict_try_inference_error; eauto.
  - eapply predict_try_decode_error; eauto.
  - eapply predict_try_index_error; eauto.
Qed.

Lemma predict_loaded model le req :
  predict {| loaded_model := Some model; loaded_le_personality := Some le |} req
  = try_except (predict_try model le req) predict_except.
Proof. reflexivity. Qed.

Lemma try_except_raise e t :
  try_except (Raise e, t) predict_except
  = (Ok {| status := 500;
           body := jsonify1 "error" (internal_error_prefix ++ exn_text e) |},
     (t ++ [EvPrint ("Error during prediction: " ++ exn_text e)])%list).
Proof. reflexivity. Qed.

End Predict_facts.

(** ** POST /predict when the artifacts are not loaded *)

Lemma predict_guard {lib : PyLib} (st : server_state) (req : request) :
  available st = false ->
  predict st req
  = (Ok {| status := 500; body := jsonify1 "error" unavailable_message |}, []).
Proof.
  unfold available, predict.
  destruct (loaded_model st), (loaded_le_personality st);
    intros H; try discriminate H; reflexivity.
Qed.

Lemma available_false st :
  available st = false <->
  loaded_model st = None \/ loaded_le_personality st = None.
Proof.
  unfold available.
  destruct (loaded_model st), (loaded_le_personality st); split; intros H;
    try reflexivity; try discriminate H; auto; destruct H; discriminate.
Qed.

(** C1.  When the classifier or the label encoder is not loaded, POST /predict
    answers every request, whatever its body, with status 500 and the JSON
    object whose only member is ["error"] with the text "Prediction service
    unavailable: Model not loaded on server."; the trace of the request is
    empty, so the body was not parsed and the classifier was not called. *)
Theorem predict_unavailable {lib : PyLib} (st : server_state) (req : request) :
  loaded_model st = None \/ loaded_le_personality st = None ->
  serve st (POST_predict req)
  = ({| status := 500;
        body := Json (PDict [("error",
                  PStr "Prediction service unavailable: Model not loaded on server.")]) |},
     []).
Proof.
  intros H. apply available_false in H.
  unfold serve. now rewrite predict_guard.
Qed.

Lemma predict_unavailable_witness :
  (loaded_model unloaded_state = None \/ loaded_le_personality unloaded_state = None)
  /\ serve (lib := sample_lib) unloaded_state
       (POST_predict (request_with (Ok (PDict []))))
     = ({| status := 500;
           body := Json (PDict [("error",
                     PStr "Prediction service unavailable: Model not loaded on server.")]) |},
        []).
Proof.
  split.
  - left. reflexivity.
  - apply (@predict_unavailable sample_lib). left. reflexivity.
Defined.

(** ** The outcomes of POST /predict *)

Section Outcome_facts.
Context {lib : PyLib}.

Lemma inverse_transform_known le c codes :
  forallb (known_code le) (c :: codes) = true ->
  exists labels,
    inverse_transform le (c :: codes)
    = Ok (nth (Z.to_nat c) (classes_ le) "" :: labels)
    /\ In (nth (Z.to_nat c) (classes_ le) "") (classes_ le).
Proof.
  intros H. unfold inverse_transform. rewrite H. simpl in H.
  apply andb_prop in H as [Hc _]. unfold known_code in Hc.
  apply andb_prop in Hc as [Hlo Hhi].
  eexists. split; [reflexivity|].
  apply nth_In. apply Z.leb_le in Hlo. apply Z.ltb_lt in Hhi. lia.
Qed.

Lemma inverse_transform_unknown le codes :
  forallb (known_code le) codes = false ->
  inverse_transform le codes = Raise (unseen_labels le codes).
Proof. intros H. unfold inverse_transform. now rewrite H. Qed.

Lemma inverse_transform_empty le : inverse_transform le [] = Ok [].
Proof. reflexivity. Qed.

(** A JSON object whose row cannot be built: the exception of the cell is
    reported and the classifier is not called. *)
Lemma predict_object_cell_raised model le req items e :
  get_json req = Ok (PDict items) ->
  feature_row (dict_get items) = Raise e ->
  serve {| loaded_model := Some model; loaded_le_personality := Some le |}
        (POST_predict req)
  = (error_response (internal_error_prefix ++ exn_text e),
     [EvParse; received_line (PDict items); error_line e]).
Proof.
  intros Hj Hr.
  assert (Hf : feature_vector (PDict items) = (Raise e, []))
    by now rewrite feature_vector_dict, Hr.
  unfold serve. rewrite predict_loaded.
  now rewrite (predict_try_normalize_error model le req _ _ _ Hj Hf).
Qed.

(** A JSON object whose row is built: the response and the trace follow from
    what the classifier answers on the row. *)
Lemma predict_object_row model le req items row :
  get_json req = Ok (PDict items) ->
  feature_row (dict_get items) = Ok row ->
  serve {| loaded_model := Some model; loaded_le_personality := Some le |}
        (POST_predict req)
  = match clf_predict model row with
    | Raise e =>
        (error_response (internal_error_prefix ++ exn_text e),
         [EvParse; received_line (PDict items); EvPredict row; error_line e])
    | Ok codes =>
        if forallb (known_code le) codes then
          match codes with
          | [] =>
              (error_response (internal_error_prefix ++ exn_text no_first_label),
               [EvParse; received_line (PDict items); EvPredict row; EvDecode [];
                error_line no_first_label])
          | c :: _ =>
              (prediction_response (nth (Z.to_nat c) (classes_ le) ""),
               [EvParse; received_line (PDict items); EvPredict row; EvDecode codes])
          end
        else
          (error_response (internal_error_prefix
                           ++ exn_text (unseen_labels le codes)),
           [EvParse; received_line (PDict items); EvPredict row; EvDecode codes;
            error_line (unseen_labels le codes)])
    end.
Proof.
  intros Hj Hr.
  assert (Hf : feature_vector (PDict items) = (Ok row, []))
    by now rewrite feature_vector_dict, Hr.
  unfold serve. rewrite predict_loaded.
  destruct (clf_predict model row) as [codes|e] eqn:Hp.
  2:{ now rewrite (predict_try_inference_error model le req _ _ _ _ Hj Hf Hp). }
  destruct (forallb (known_code le) codes) eqn:Hk.
  2:{ now rewrite (predict_try_decode_error model le req _ _ _ _ _ Hj Hf Hp
                     (inverse_transform_unknown le codes Hk)). }
  destruct codes as [|c rest].
  - now rewrite (predict_try_index_error model le req _ _ _ _ [] _ Hj Hf Hp
                   (inverse_transform_empty le) eq_refl).
  - destruct (inverse_transform_known le c rest Hk) as (labels & Hd & _).
    now rewrite (predict_try_success model le req _ _ _ _ _ _ Hj Hf Hp Hd eq_refl).
Qed.

Lemma predict_not_object model le req v :
  get_json req = Ok v ->
  is_dict v = false ->
  serve {| loaded_model := Some model; loaded_le_personality := Some le |}
        (POST_predict req)
  = (error_response (internal_error_prefix ++ exn_text (no_get v)),
     [EvParse; received_line v; error_line (no_get v)]).
Proof.
  intros Hj Hd. unfold serve. rewrite predict_loaded.
  now rewrite (predict_try_normalize_error model le req v _ _ Hj
                 (feature_vector_not_dict v Hd)).
Qed.

(** Every request to [predict] with the artifacts loaded ends in one of the
    seven outcomes. *)
Lemma predict_outcome_holds model le req :
  predict_outcome model le req
    (fst (serve {| loaded_model := Some model; loaded_le_personality := Some le |}
                (POST_predict req)))
    (snd (serve {| loaded_model := Some model; loaded_le_personality := Some le |}
                (POST_predict req))).
Proof.
  destruct (get_json req) as [v|e] eqn:Hj.
  2:{ unfold serve. rewrite predict_loaded.
      rewrite (predict_try_parse_error model le req e Hj), try_except_raise.
      now apply outcome_bad_body. }
  destruct (is_dict v) eqn:Hd.
  2:{ rewrite (predict_not_object model le req v Hj Hd).
      now apply outcome_not_object. }
  destruct v as [| | | | | |items]; try discriminate Hd.
  destruct (feature_row (dict_get items)) as [row|e] eqn:Hr.
  2:{ rewrite (predict_object_cell_raised model le req items e Hj Hr).
      now apply outcome_cell_raised. }
  rewrite (predict_object_row model le req items row Hj Hr).
  destruct (clf_predict model row) as [codes|e] eqn:Hp.
  2:{ now apply outcome_classifier_raised. }
  destruct (forallb (known_code le) codes) eqn:Hk.
  2:{ now apply outcome_unknown_code. }
  destruct codes as [|c rest].
  - now apply outcome_no_code.
  - now apply outcome_label.
Qed.

End Outcome_facts.

(** ** POST /predict on a body without the expected fields *)

Section Predict_claims.
Context {lib : PyLib}.

(** C2, amended.  For a body that parses to a JSON object with none of the
    seven expected fields and with the artifacts loaded, the classifier is
    called once, on the row whose five numeric fields are NaN and whose two
    categorical fields are 0.  The response is 200 with ["prediction"] bound
    to a class of the encoder exactly when the classifier answers that row
    with at least one code and the encoder knows every code; when the
    classifier raises, the response is 500 with the text of its exception,
    and in every other case it is 500 with a JSON error.  A body that parses
    to a JSON value other than an object gets 500 with a JSON error. *)
Theorem predict_without_fields model le :
  (forall req items,
      get_json req = Ok (PDict items) ->
      (forall f, In f expected_feature_order -> lookup items f = None) ->
      (exists rest,
          snd (serve {| loaded_model := Some model;
                        loaded_le_personality := Some le |}
                     (POST_predict req))
          = EvParse :: received_line (PDict items) :: EvPredict missing_row :: rest
          /\ Forall not_a_predict_event rest)
      /\ (status (fst (serve {| loaded_model := Some model;
                                loaded_le_personality := Some le |}
                             (POST_predict req))) = 200
          <-> exists c codes,
                clf_predict model missing_row = Ok (c :: codes)
                /\ forallb (known_code le) (c :: codes) = true)
      /\ (forall c codes,
             clf_predict model missing_row = Ok (c :: codes) ->
             forallb (known_code le) (c :: codes) = true ->
             In (nth (Z.to_nat c) (classes_ le) "") (classes_ le)
             /\ serve {| loaded_model := Some model;
                         loaded_le_personality := Some le |}
                      (POST_predict req)
                = ({| status := 200;
                      body := Json (PDict [("prediction",
                                PStr (nth (Z.to_nat c) (classes_ le) ""))]) |},
                   [ EvParse; received_line (PDict items);
                     EvPredict missing_row; EvDecode (c :: codes) ]))
      /\ (forall e,
             clf_predict model missing_row = Raise e ->
             serve {| loaded_model := Some model;
                      loaded_le_personality := Some le |}
                   (POST_predict req)
             = ({| status := 500;
                   body := Json (PDict [("error",
                             PStr (internal_error_prefix ++ exn_text e))]) |},
                [ EvParse; received_line (PDict items);
                  EvPredict missing_row; error_line e ]))
      /\ (status (fst (serve {| loaded_model := Some model;
                                loaded_le_personality := Some le |}
                             (POST_predict req))) = 200
          \/ exists message,
               fst (serve {| loaded_model := Some model;
                             loaded_le_personality := Some le |}
                          (POST_predict req))
               = {| status := 500;
                    body := Json (PDict [("error", PStr message)]) |}))
  /\ (forall req v,
         get_json req = Ok v ->
         is_dict v = false ->
         fst (serve {| loaded_model := Some model;
                       loaded_le_personality := Some le |}
                    (POST_predict req))
         = {| status := 500;
              body := Json (PDict [("error",
                        PStr (internal_error_prefix ++ "'" ++ type_name v
                              ++ "' object has no attribute 'get'"))]) |}).
Proof.
  split.
  - intros req items Hj Hnone.
    rewrite (predict_object_row model le req items missing_row Hj
               (feature_row_missing items Hnone)).
    destruct (clf_predict model missing_row) as [codes|e] eqn:Hp.
    2:{ repeat split.
        - eexists. split; [reflexivity | repeat constructor].
        - discriminate.
        - intros (c & codes & Hc & _). discriminate Hc.
        - discriminate.
        - discriminate.
        - intros e' He. now injection He as <-.
        - right. eexists. reflexivity. }
    destruct (forallb (known_code le) codes) eqn:Hk.
    2:{ repeat split.
        - eexists. split; [reflexivity | repeat constructor].
        - discriminate.
        - intros (c & codes' & Hc & Hk'). injection Hc as ->.
          rewrite Hk in Hk'. discriminate Hk'.
        - injection H as ->. rewrite Hk in H0. discriminate H0.
        - injection H as ->. rewrite Hk in H0. discriminate H0.
        - discriminate.
        - right. eexists. reflexivity. }
    destruct codes as [|c rest].
    + repeat split.
      * eexists. split; [reflexivity | repeat constructor].
      * discriminate.
      * intros (c & codes' & Hc & _). discriminate Hc.
      * discriminate H.
      * discriminate H.
      * discriminate.
      * right. eexists. reflexivity.
    + repeat split.
      * eexists. split; [reflexivity | repeat constructor].
      * intros _. now exists c, rest.
      * injection H as <- <-.
        now destruct (inverse_transform_known le c rest Hk) as (_ & _ & Hin).
      * injection H as <- <-. reflexivity.
      * discriminate.
      * now left.
  - intros req v Hj Hd. now rewrite (predict_not_object model le req v Hj Hd).
Qed.

(** C9.  With the artifacts loaded, a body that parses to a JSON value other
    than an object (an array, a number, a string, a boolean or null) gets
    status 500 and a JSON error whose text is that of the [AttributeError]
    raised by the lookup of [get]; the classifier is not called. *)
Theorem predict_non_object model le req v :
  get_json req = Ok v ->
  is_dict v = false ->
  serve {| loaded_model := Some model; loaded_le_personality := Some le |}
        (POST_predict req)
  = ({| status := 500;
        body := Json (PDict [("error",
                  PStr ("An internal server error occurred during prediction: '"
                        ++ type_name v ++ "' object has no attribute 'get'"))]) |},
     [ EvParse; received_line v;
       EvPrint ("Error during prediction: '" ++ type_name v
                ++ "' object has no attribute 'get'") ]).
Proof.
  intros Hj Hd. unfold serve. rewrite predict_loaded.
  erewrite predict_try_normalize_error;
    [| exact Hj | apply feature_vector_not_dict; exact Hd ].
  reflexivity.
Qed.

(** C6.  With the artifacts loaded, [predict] never raises: it returns a
    response.  Whatever stage of the [try] block raises (parsing the body,
    building the feature row, the classifier, the encoder, taking the first
    label), the response is 500 with the JSON object whose only member is
    ["error"], and its text is a fixed prefix followed by the text of the
    exception. *)
Theorem prediction_errors_are_caught model le req :
  (exists r t,
      predict {| loaded_model := Some model; loaded_le_personality := Some le |} req
      = (Ok r, t)
      /\ (status r = 200
          \/ exists e, raised_in_try model le req e
                       /\ r = {| status := 500;
                                 body := Json (PDict [("error",
                                   PStr (internal_error_prefix ++ exn_text e))]) |}))
  /\ (forall e,
         raised_in_try model le req e ->
         exists t,
           serve {| loaded_model := Some model; loaded_le_personality := Some le |}
                 (POST_predict req)
           = ({| status := 500;
                 body := Json (PDict [("error",
                           PStr (internal_error_prefix ++ exn_text e))]) |},
              (t ++ [EvPrint ("Error during prediction: " ++ exn_text e)])%list)
           /\ contains (exn_text e) (internal_error_prefix ++ exn_text e)).
Proof.
  split.
  - rewrite predict_loaded.
    destruct (predict_try_cases model le req) as [(label & t & H)|(e & t & Hr & H)];
      rewrite H.
    + eexists _, t. split; [reflexivity|]. left. reflexivity.
    + rewrite try_except_raise. eexists _, _. split; [reflexivity|].
      right. exists e. split; [exact Hr | reflexivity].
  - intros e Hr. destruct (raised_in_try_outcome model le req e Hr) as [t H].
    exists t. split.
    + unfold serve. rewrite predict_loaded, H, try_except_raise. reflexivity.
    + exists internal_error_prefix, "". now rewrite append_empty_r.
Qed.

End Predict_claims.

Lemma predict_without_fields_witness :
  exists label,
    In label (classes_ sample_encoder) /\
    serve (lib := sample_lib) sample_state (POST_predict (request_with (Ok (PDict []))))
    = ({| status := 200; body := Json (PDict [("prediction", PStr label)]) |},
       [ EvParse; received_line (lib := sample_lib) (PDict []);
         EvPredict missing_row; EvDecode [0] ]).
Proof.
  exists (nth (Z.to_nat 0) (classes_ sample_encoder) "").
  apply (proj1 (proj2 (proj2 (proj1
           (@predict_without_fields sample_lib sample_model sample_encoder)
           (request_with (Ok (PDict []))) [] eq_refl (fun f _ => eq_refl))))
         0 [] eq_refl eq_refl).
Defined.

(** C2 as stated fails twice over.  A JSON array is a valid body with none of
    the fields and gets 500; and an empty JSON object gets 500 from a loaded
    classifier that refuses missing numbers. *)
Lemma predict_without_fields_can_fail :
  forallb (fun f => negb (has_field (PList []) f)) expected_feature_order = true
  /\ available sample_state = true
  /\ serve (lib := sample_lib) sample_state
       (POST_predict (request_with (Ok (PList []))))
     = ({| status := 500;
           body := Json (PDict [("error",
                     PStr "An internal server error occurred during prediction: 'list' object has no attribute 'get'")]) |},
        [ EvParse;
          EvPrint "Received prediction request with raw data: []";
          EvPrint "Error during prediction: 'list' object has no attribute 'get'" ])
  /\ forallb (fun f => negb (has_field (PDict []) f)) expected_feature_order = true
  /\ available strict_state = true
  /\ serve (lib := sample_lib) strict_state
       (POST_predict (request_with (Ok (PDict []))))
     = ({| status := 500;
           body := Json (PDict [("error",
                     PStr "An internal server error occurred during prediction: Input contains NaN")]) |},
        [ EvParse;
          EvPrint "Received prediction request with raw data: {}";
          EvPredict missing_row;
          EvPrint "Error during prediction: Input contains NaN" ]).
Proof. repeat split; vm_compute; reflexivity. Qed.

(** The fully specified body of the page's example is answered with a class
    of the encoder. *)
Example predict_example_body :
  fst (serve (lib := sample_lib) sample_state
         (POST_predict (request_with (Ok (PDict
            [ ("Time_spent_Alone", PFloat 7);
              ("Stage_fear", PStr "No");
              ("Social_event_attendance", PFloat 2);
              ("Going_outside", PFloat 1);
              ("Drained_after_socializing", PStr "Yes");
              ("Friends_circle_size", PFloat 2);
              ("Post_frequency", PFloat 1) ])))))
  = {| status := 200; body := Json (PDict [("prediction", PStr "Extrovert")]) |}.
Proof. vm_compute. reflexivity. Qed.

Lemma predict_non_object_witness :
  serve (lib := sample_lib) sample_state (POST_predict (request_with (Ok (PList []))))
  = ({| status := 500;
        body := Json (PDict [("error",
                  PStr ("An internal server error occurred during prediction: '"
                        ++ type_name (PList []) ++ "' object has no attribute 'get'"))]) |},
     [ EvParse; received_line (lib := sample_lib) (PList []);
       EvPrint ("Error during prediction: '" ++ type_name (PList [])
                ++ "' object has no attribute 'get'") ]).
Proof.
  apply (@predict_non_object sample_lib sample_model sample_encoder
           (request_with (Ok (PList []))) (PList [])); reflexivity.
Defined.

(** ** The feature row *)

Section Field_facts.
Context {lib : PyLib}.

Lemma feature_vector_ok items row :
  feature_vector (PDict items) = (Ok row, []) <-> feature_row (dict_get items) = Ok row.
Proof.
  rewrite feature_vector_dict. split; [intros H; now injection H | now intros ->].
Qed.

Lemma feature_vector_raise items e :
  feature_vector (PDict items) = (Raise e, []) <-> feature_row (dict_get items) = Raise e.
Proof.
  rewrite feature_vector_dict. split; [intros H; now injection H | now intros ->].
Qed.

(** The row of a JSON object is built exactly when each of the seven cells
    is. *)
Lemma feature_vector_built items :
  (exists row, feature_vector (PDict items) = (Ok row, []))
  <-> (forall col, In col categorical_columns ->
                   exists cell, categorical_cell (dict_get items col) = Ok cell)
      /\ (forall col, In col numeric_columns ->
                      exists cell, to_numeric (dict_get items col) = Ok cell).
Proof.
  split.
  - intros [row H]. apply feature_vector_ok in H. split; intros col Hcol.
    + destruct (feature_row_lookup_categorical _ row col H Hcol) as (cell & Hc & _).
      now exists cell.
    + destruct (feature_row_lookup_numeric _ row col H Hcol) as (cell & Hc & _).
      now exists cell.
  - intros [Hc Hn]. destruct (feature_row_all_ok _ Hc Hn) as [row H].
    exists row. now apply feature_vector_ok.
Qed.

(** When the row is not built, a categorical field holds a float that
    [astype(str)] left as a missing value, or a numeric field holds an int
    outside the 64-bit ranges that the library fails to turn into a float. *)
Lemma feature_vector_failure items e :
  feature_vector (PDict items) = (Raise e, []) ->
  (exists col f,
      In col categorical_columns
      /\ lookup items col = Some (PFloat f)
      /\ astype_str_float f = None
      /\ e = no_lower)
  \/ (exists col z,
        In col numeric_columns
        /\ lookup items col = Some (PInt z)
        /\ in_64_bits z = false
        /\ wide_int_to_float z = Raise e).
Proof.
  intros H. apply feature_vector_raise in H.
  destruct (feature_row_raise _ e H) as [(col & Hin & Hr)|(col & Hin & Hr)].
  - left. destruct (categorical_cell_raise _ e Hr) as (-> & f & Hv & Hf).
    exists col, f. repeat split; try assumption.
    unfold dict_get in Hv. destruct (lookup items col); [now subst | discriminate].
  - right. destruct (to_numeric_raise _ e Hr) as (z & Hv & Hz & Hw).
    exists col, z. repeat split; try assumption.
    unfold dict_get in Hv. destruct (lookup items col); [now subst | discriminate].
Qed.

Lemma feature_vector_cases items :
  (exists row, feature_vector (PDict items) = (Ok row, []))
  \/ (exists e, feature_vector (PDict items) = (Raise e, [])).
Proof.
  rewrite feature_vector_dict.
  destruct (feature_row (dict_get items)) as [row|e]; [left | right]; eauto.
Qed.

(** C10.  A categorical field given a value that is neither a string nor
    null is compared through the text that [astype(str)] gives: its cell is 1
    exactly when that text, lowered, is [yes].  For the boolean [true], the
    number 1 and every value that is not a float the text is [str] of the
    value and the cell is 0.  The cell is the one found in the feature row
    whenever the row is built, and the row is built when the other six
    fields convert; only a float that [astype(str)] leaves as a missing value
    has no cell, and then the row is not built. *)
Theorem categorical_non_string items col v :
  In col categorical_columns ->
  lookup items col = Some v ->
  v <> PNone ->
  (forall s, v <> PStr s) ->
  (categorical_cell v = Ok (PInt 1)
   <-> exists text, astype_str v = Some text /\ lower text = "yes")
  /\ ((forall f, v <> PFloat f) ->
      astype_str v = Some (py_str v) /\ categorical_cell v = Ok (PInt 0))
  /\ (v = PBool true -> categorical_cell v = Ok (PInt 0))
  /\ (v = PInt 1 -> categorical_cell v = Ok (PInt 0))
  /\ (forall row,
         feature_vector (PDict items) = (Ok row, []) ->
         exists cell, categorical_cell v = Ok cell /\ lookup row col = Some cell)
  /\ ((forall f, v <> PFloat f) ->
      (forall col', In col' categorical_columns ->
                    exists cell, categorical_cell (dict_get items col') = Ok cell)
      /\ (forall col', In col' numeric_columns ->
                       exists cell, to_numeric (dict_get items col') = Ok cell)
      <-> exists row,
            feature_vector (PDict items) = (Ok row, [])
            /\ lookup row col = Some (PInt 0))
  /\ (forall e,
         categorical_cell v = Raise e ->
         (exists f, v = PFloat f /\ astype_str_float f = None)
         /\ exists e', feature_vector (PDict items) = (Raise e', [])).
Proof.
  intros Hcol Hv Hnone Hstr.
  assert (Hget : dict_get items col = v) by (unfold dict_get; now rewrite Hv).
  assert (Hcell : categorical_cell v = apply_yes_no (astype_str v)).
  { destruct v; reflexivity. }
  split; [|split; [|split; [|split; [|split; [|split]]]]].
  - rewrite Hcell. destruct (astype_str v) as [text|]; cbn [apply_yes_no].
    + split.
      * intros H. injection H as H. exists text. split; [reflexivity|].
        now apply yes_no_lower.
      * intros (text' & E & H). injection E as <-.
        apply yes_no_lower in H. now rewrite H.
    + split; [discriminate | intros (text & E & _); discriminate E].
  - intros Hf. split.
    + destruct v; try reflexivity. now destruct (Hf f).
    + now apply categorical_cell_other.
  - intros ->. reflexivity.
  - intros ->. reflexivity.
  - intros row H. apply feature_vector_ok in H.
    rewrite <- Hget. exact (feature_row_lookup_categorical _ row col H Hcol).
  - intros Hf. split.
    + intros Hall. apply feature_vector_built in Hall as [row H].
      exists row. split; [exact H|].
      apply feature_vector_ok in H.
      destruct (feature_row_lookup_categorical _ row col H Hcol) as (cell & Hc & Hl).
      rewrite Hget, (categorical_cell_other v Hstr Hf) in Hc.
      injection Hc as <-. exact Hl.
    + intros (row & H & _). apply feature_vector_built. now exists row.
  - intros e He. split.
    + destruct (categorical_cell_raise v e He) as (_ & f & Hf & Ha). now exists f.
    + destruct (feature_vector_cases items) as [[row H]|H]; [|exact H].
      apply feature_vector_ok in H.
      destruct (feature_row_lookup_categorical _ row col H Hcol) as (cell & Hc & _).
      rewrite Hget, He in Hc. discriminate Hc.
Qed.

(** What the comparison makes of a categorical field of a JSON object: 0
    when the field is absent or null, the comparison of the lowered text
    with [yes] for every other value that is not a float, so 1 exactly for
    the eight spellings of [yes] when the value is a string; and the cell is
    the one of the feature row whenever the row is built. *)
Lemma categorical_fields items col :
  In col categorical_columns ->
  (lookup items col = None -> categorical_cell (dict_get items col) = Ok (PInt 0))
  /\ (lookup items col = Some PNone ->
      categorical_cell (dict_get items col) = Ok (PInt 0))
  /\ (forall v, lookup items col = Some v -> (forall f, v <> PFloat f) ->
                categorical_cell (dict_get items col)
                = Ok (PInt (yes_no (py_str v))))
  /\ (forall s, lookup items col = Some (PStr s) ->
                (categorical_cell (dict_get items col) = Ok (PInt 1)
                 <-> In s yes_spellings))
  /\ (forall f text, lookup items col = Some (PFloat f) ->
                     astype_str_float f = Some text ->
                     categorical_cell (dict_get items col)
                     = Ok (PInt (yes_no text)))
  /\ (forall row,
         feature_vector (PDict items) = (Ok row, []) ->
         exists cell,
           categorical_cell (dict_get items col) = Ok cell
           /\ lookup row col = Some cell).
Proof.
  intros Hcol. unfold dict_get.
  split; [|split; [|split; [|split; [|split]]]].
  - now intros ->.
  - now intros ->.
  - intros v -> Hf. now rewrite categorical_cell_text.
  - intros s ->. rewrite <- yes_no_spellings.
    change (categorical_cell (PStr s)) with (Ok (A := pyval) (PInt (yes_no s))).
    split; [intros H; now injection H | now intros ->].
  - intros f text -> Ht. cbn [categorical_cell astype_str]. now rewrite Ht.
  - intros row H. apply feature_vector_ok in H.
    exact (feature_row_lookup_categorical _ row col H Hcol).
Qed.

(** C5.  For a numeric field of a JSON object the cell is what the numeric
    parse gives: NaN when the field is absent or null, NaN for a string that
    does not parse, for an array and for an object, the parsed number for a
    string that does, and the value itself for a float, a boolean and an int
    of 64 bits.  The parse raises on no such value: the only value on which
    it can raise is an int outside the 64-bit ranges, when the library fails
    to turn it into a float.  The cell is the one found in the feature row
    whenever the row is built, and the row is built exactly when all seven
    cells are. *)
Theorem numeric_fields items col :
  In col numeric_columns ->
  (lookup items col = None -> to_numeric (dict_get items col) = Ok NaN)
  /\ (lookup items col = Some PNone -> to_numeric (dict_get items col) = Ok NaN)
  /\ (forall s, lookup items col = Some (PStr s) -> parse_number s = None ->
                to_numeric (dict_get items col) = Ok NaN)
  /\ (forall s n, lookup items col = Some (PStr s) -> parse_number s = Some n ->
                  to_numeric (dict_get items col) = Ok (num_val n))
  /\ (forall z, lookup items col = Some (PInt z) -> - 2 ^ 63 <= z < 2 ^ 64 ->
                to_numeric (dict_get items col) = Ok (PInt z))
  /\ (forall f, lookup items col = Some (PFloat f) ->
                to_numeric (dict_get items col) = Ok (PFloat f))
  /\ (forall b, lookup items col = Some (PBool b) ->
                to_numeric (dict_get items col) = Ok (PBool b))
  /\ (forall l, lookup items col = Some (PList l) ->
                to_numeric (dict_get items col) = Ok NaN)
  /\ (forall d, lookup items col = Some (PDict d) ->
                to_numeric (dict_get items col) = Ok NaN)
  /\ (forall z f, lookup items col = Some (PInt z) ->
                  ~ (- 2 ^ 63 <= z < 2 ^ 64) ->
                  wide_int_to_float z = Ok f ->
                  to_numeric (dict_get items col) = Ok (PFloat f))
  /\ (forall e, to_numeric (dict_get items col) = Raise e ->
                exists z, lookup items col = Some (PInt z)
                          /\ ~ (- 2 ^ 63 <= z < 2 ^ 64)
                          /\ wide_int_to_float z = Raise e)
  /\ (forall row,
         feature_vector (PDict items) = (Ok row, []) ->
         exists cell,
           to_numeric (dict_get items col) = Ok cell /\ lookup row col = Some cell)
  /\ ((exists row, feature_vector (PDict items) = (Ok row, []))
      <-> (forall col', In col' categorical_columns ->
                        exists cell, categorical_cell (dict_get items col') = Ok cell)
          /\ (forall col', In col' numeric_columns ->
                           exists cell, to_numeric (dict_get items col') = Ok cell)).
Proof.
  intros Hcol.
  assert (Hrange : forall z, in_64_bits z = true <-> - 2 ^ 63 <= z < 2 ^ 64).
  { intros z. unfold in_64_bits. rewrite andb_true_iff, Z.leb_le, Z.ltb_lt. tauto. }
  unfold dict_get.
  repeat match goal with |- _ /\ _ => split end.
  - now intros ->.
  - now intros ->.
  - intros s -> Hp. simpl. now rewrite Hp.
  - intros s n -> Hp. simpl. now rewrite Hp.
  - intros z -> Hz. simpl. apply Hrange in Hz. now rewrite Hz.
  - now intros f ->.
  - now intros b ->.
  - now intros l ->.
  - now intros d ->.
  - intros z f -> Hz Hw. simpl.
    destruct (in_64_bits z) eqn:E; [apply Hrange in E; contradiction|].
    now rewrite Hw.
  - intros e He. destruct (to_numeric_raise _ e He) as (z & Hv & Hz & Hw).
    exists z. destruct (lookup items col) as [v|]; [|discriminate Hv]. subst v.
    repeat split; [|exact Hw].
    intros Hin. apply Hrange in Hin. rewrite Hin in Hz. discriminate Hz.
  - intros row H. apply feature_vector_ok in H.
    exact (feature_row_lookup_numeric _ row col H Hcol).
  - apply feature_vector_built.
Qed.

(** The trace of a request whose body is a JSON object. *)
Lemma predict_trace_object model le req items :
  get_json req = Ok (PDict items) ->
  (forall row,
      feature_vector (PDict items) = (Ok row, []) ->
      exists rest,
        snd (serve {| loaded_model := Some model; loaded_le_personality := Some le |}
                   (POST_predict req))
        = EvParse :: received_line (PDict items) :: EvPredict row :: rest
        /\ Forall not_a_predict_event rest)
  /\ (forall e,
         feature_vector (PDict items) = (Raise e, []) ->
         snd (serve {| loaded_model := Some model; loaded_le_personality := Some le |}
                    (POST_predict req))
         = [EvParse; received_line (PDict items); error_line e]).
Proof.
  intros Hj. split.
  - intros row H. apply feature_vector_ok in H.
    rewrite (predict_object_row model le req items row Hj H).
    destruct (clf_predict model row) as [codes|e];
      [destruct (forallb (known_code le) codes); [destruct codes|]|];
      (eexists; split; [reflexivity | repeat constructor]).
  - intros e H. apply feature_vector_raise in H.
    now rewrite (predict_object_cell_raised model le req items e Hj H).
Qed.

(** C4.  On a JSON object with the artifacts loaded, a row that is given to
    the classifier has the seven expected columns in the fixed order.  When
    the row of the object is built the classifier is called once, on that
    row; when it is not, the classifier is not called.  The outcome of
    building the row is the same for any reordering of the members of the
    object, and for any object that agrees with it on the seven fields, so
    other keys do not matter. *)
Theorem feature_order_fixed model le req items :
  get_json req = Ok (PDict items) ->
  (forall row,
      feature_vector (PDict items) = (Ok row, []) ->
      map fst row = expected_feature_order
      /\ exists rest,
           snd (serve {| loaded_model := Some model;
                         loaded_le_personality := Some le |}
                      (POST_predict req))
           = EvParse :: received_line (PDict items) :: EvPredict row :: rest
           /\ Forall not_a_predict_event rest)
  /\ (forall e,
         feature_vector (PDict items) = (Raise e, []) ->
         snd (serve {| loaded_model := Some model;
                       loaded_le_personality := Some le |}
                    (POST_predict req))
         = [EvParse; received_line (PDict items); error_line e])
  /\ ((exists row, feature_vector (PDict items) = (Ok row, []))
      \/ (exists e, feature_vector (PDict items) = (Raise e, [])))
  /\ ((exists row, feature_vector (PDict items) = (Ok row, []))
      <-> (forall col, In col categorical_columns ->
                       exists cell, categorical_cell (dict_get items col) = Ok cell)
          /\ (forall col, In col numeric_columns ->
                          exists cell, to_numeric (dict_get items col) = Ok cell))
  /\ (forall row',
         In (EvPredict row')
            (snd (serve {| loaded_model := Some model;
                           loaded_le_personality := Some le |}
                        (POST_predict req))) ->
         map fst row' = expected_feature_order)
  /\ (forall items',
         NoDup (map fst items) -> Permutation items items' ->
         feature_vector (PDict items') = feature_vector (PDict items))
  /\ (forall items',
         (forall f, In f expected_feature_order ->
                    lookup items' f = lookup items f) ->
         feature_vector (PDict items') = feature_vector (PDict items)).
Proof.
  intros Hj.
  destruct (predict_trace_object model le req items Hj) as [Hok Hraise].
  assert (Hext : forall items',
             (forall f, In f expected_feature_order ->
                        lookup items' f = lookup items f) ->
             feature_vector (PDict items') = feature_vector (PDict items)).
  { intros items' H. rewrite !feature_vector_dict. f_equal.
    apply feature_row_ext. intros f Hf. unfold dict_get. now rewrite H. }
  split; [|split; [|split; [|split; [|split; [|split]]]]].
  - intros row H. split; [|now apply Hok].
    apply feature_vector_ok in H. exact (feature_row_columns _ row H).
  - exact Hraise.
  - apply feature_vector_cases.
  - apply feature_vector_built.
  - intros row' Hin.
    destruct (feature_vector_cases items) as [[row H]|[e H]].
    + destruct (Hok row H) as (rest & Ht & Hrest). rewrite Ht in Hin.
      destruct Hin as [Hin|[Hin|[Hin|Hin]]]; try discriminate Hin.
      * injection Hin as <-. apply feature_vector_ok in H.
        exact (feature_row_columns _ row H).
      * rewrite Forall_forall in Hrest. destruct (Hrest _ Hin).
    + rewrite (Hraise e H) in Hin. unfold received_line, error_line in Hin.
      destruct Hin as [Hin|[Hin|[Hin|[]]]]; discriminate Hin.
  - intros items' Hnd Hperm. apply Hext. intros f _.
    symmetry. now apply lookup_permutation.
  - exact Hext.
Qed.

(** The row is not built when a categorical field holds a float that
    [astype(str)] keeps as a missing value: the lambda calls [lower] on
    it.  The categorical loop runs first, so no other cell can raise
    before. *)
Lemma feature_row_missing_float items col f :
  In col categorical_columns ->
  lookup items col = Some (PFloat f) ->
  astype_str_float f = None ->
  feature_row (dict_get items) = Raise no_lower.
Proof.
  intros Hcol Hv Hf.
  assert (Hcell : categorical_cell (dict_get items col) = Raise no_lower).
  { unfold dict_get. rewrite Hv. cbn [categorical_cell astype_str]. now rewrite Hf. }
  unfold feature_row, frame_row.
  destruct Hcol as [<-|[<-|[]]].
  - now rewrite Hcell.
  - destruct (categorical_cell (dict_get items "Stage_fear")) as [x|e] eqn:H1;
      cbn [rbind].
    + now rewrite Hcell.
    + now destruct (categorical_cell_raise _ e H1) as (-> & _).
Qed.

(** C3.  A categorical field that holds a float which [astype(str)] keeps
    as a missing value, as pandas 3 does with NaN, is not normalised to 0:
    the lambda calls [lower] on the float, the [AttributeError] is caught
    and the answer is 500 with the text of that error, whatever the other
    fields are; the classifier is not called. *)
Theorem categorical_missing_float_fails model le req items col f :
  In col categorical_columns ->
  get_json req = Ok (PDict items) ->
  lookup items col = Some (PFloat f) ->
  astype_str_float f = None ->
  serve {| loaded_model := Some model; loaded_le_personality := Some le |}
        (POST_predict req)
  = ({| status := 500;
        body := Json (PDict [("error",
                  PStr "An internal server error occurred during prediction: 'float' object has no attribute 'lower'")]) |},
     [ EvParse;
       received_line (PDict items);
       EvPrint "Error during prediction: 'float' object has no attribute 'lower'" ])
  /\ count_predict
       (snd (serve {| loaded_model := Some model; loaded_le_personality := Some le |}
                   (POST_predict req))) = 0%nat.
Proof.
  intros Hcol Hj Hv Hf.
  rewrite (predict_object_cell_raised model le req items no_lower Hj
             (feature_row_missing_float items col f Hcol Hv Hf)).
  split; reflexivity.
Qed.

End Field_facts.

Lemma categorical_missing_float_fails_witness :
  serve (lib := pandas3_lib) sample_state (POST_predict (request_with (Ok nan_body)))
  = ({| status := 500;
        body := Json (PDict [("error",
                  PStr "An internal server error occurred during prediction: 'float' object has no attribute 'lower'")]) |},
     [ EvParse;
       EvPrint "Received prediction request with raw data: {'Stage_fear': nan}";
       EvPrint "Error during prediction: 'float' object has no attribute 'lower'" ]).
Proof.
  apply (proj1 (@categorical_missing_float_fails pandas3_lib sample_model sample_encoder
                  (request_with (Ok nan_body)) [("Stage_fear", PFloat nan)]
                  "Stage_fear" nan (or_introl eq_refl) eq_refl eq_refl eq_refl)).
Defined.

(** With a pandas that turns NaN into the text [nan], the same body has its
    field normalised to 0 and the row is built. *)
Example categorical_missing_float_text :
  feature_vector (lib := sample_lib) nan_body
  = (Ok [ ("Time_spent_Alone", NaN);
          ("Stage_fear", PInt 0);
          ("Social_event_attendance", NaN);
          ("Going_outside", NaN);
          ("Drained_after_socializing", PInt 0);
          ("Friends_circle_size", NaN);
          ("Post_frequency", NaN) ], []).
Proof. vm_compute. reflexivity. Qed.

Lemma categorical_non_string_witness :
  categorical_cell (lib := sample_lib) (PBool true) = Ok (PInt 0)
  /\ exists row,
       feature_vector (lib := sample_lib) (PDict [("Stage_fear", PBool true)])
       = (Ok row, [])
       /\ lookup row "Stage_fear" = Some (PInt 0).
Proof.
  destruct (@categorical_non_string sample_lib [("Stage_fear", PBool true)]
              "Stage_fear" (PBool true))
    as (_ & _ & Htrue & _ & _ & Hrow & _).
  - simpl. auto.
  - reflexivity.
  - discriminate.
  - discriminate.
  - split; [exact (Htrue eq_refl)|].
    apply Hrow; [discriminate|]. split.
    + intros col' [<-|[<-|[]]]; eexists; reflexivity.
    + intros col' [<-|[<-|[<-|[<-|[<-|[]]]]]]; eexists; reflexivity.
Defined.

Lemma numeric_fields_witness :
  to_numeric (lib := sample_lib)
    (dict_get [("Going_outside", PStr "often")] "Going_outside") = Ok NaN
  /\ exists row,
       feature_vector (lib := sample_lib) (PDict [("Going_outside", PStr "often")])
       = (Ok row, []).
Proof.
  destruct (@numeric_fields sample_lib [("Going_outside", PStr "often")] "Going_outside")
    as (_ & _ & Hbad & _ & _ & _ & _ & _ & _ & _ & _ & _ & Hbuilt).
  - simpl. auto.
  - split; [exact (Hbad "often" eq_refl eq_refl)|].
    apply Hbuilt. split.
    + intros col' [<-|[<-|[]]]; eexists; reflexivity.
    + intros col' [<-|[<-|[<-|[<-|[<-|[]]]]]]; eexists; reflexivity.
Defined.

Lemma feature_order_fixed_witness :
  exists row rest,
    feature_vector (lib := sample_lib)
      (PDict [("zodiac", PStr "Leo"); ("Post_frequency", PInt 3);
              ("Stage_fear", PStr "Yes")])
    = (Ok row, [])
    /\ map fst row = expected_feature_order
    /\ snd (serve (lib := sample_lib) sample_state
              (POST_predict (request_with
                 (Ok (PDict [("zodiac", PStr "Leo"); ("Post_frequency", PInt 3);
                             ("Stage_fear", PStr "Yes")])))))
       = EvParse
         :: received_line (lib := sample_lib)
              (PDict [("zodiac", PStr "Leo"); ("Post_frequency", PInt 3);
                      ("Stage_fear", PStr "Yes")])
         :: EvPredict row :: rest.
Proof.
  destruct (@feature_order_fixed sample_lib sample_model sample_encoder
              (request_with
                 (Ok (PDict [("zodiac", PStr "Leo"); ("Post_frequency", PInt 3);
                             ("Stage_fear", PStr "Yes")])))
              [("zodiac", PStr "Leo"); ("Post_frequency", PInt 3);
               ("Stage_fear", PStr "Yes")] eq_refl)
    as (Hok & _ & _ & Hbuilt & _).
  destruct (proj2 Hbuilt) as [row Hrow].
  - split.
    + intros col' [<-|[<-|[]]]; eexists; reflexivity.
    + intros col' [<-|[<-|[<-|[<-|[<-|[]]]]]]; eexists; reflexivity.
  - destruct (Hok row Hrow) as (Hcols & rest & Htrace & _).
    exists row, rest. repeat split; assumption.
Defined.

(** ** GET / and the template engine *)

Lemma prefix_append (n after : string) : String.prefix n (n ++ after) = true.
Proof.
  induction n as [|a n IH]; simpl; [now destruct after|].
  destruct (ascii_dec a a); [exact IH | contradiction].
Qed.

Lemma infixb_prefix needle hay : String.prefix needle hay = true -> infixb needle hay = true.
Proof. intros H. destruct hay; cbn [infixb]; now rewrite H. Qed.

Lemma contains_infixb needle hay : contains needle hay -> infixb needle hay = true.
Proof.
  intros (before & after & ->).
  induction before as [|a before IH].
  - apply infixb_prefix. exact (prefix_append needle after).
  - change (String a before ++ needle ++ after)
      with (String a (before ++ needle ++ after)).
    cbn [infixb]. rewrite IH. apply orb_true_r.
Qed.

Lemma has_char_app x a b : has_char x (a ++ b) = (has_char x a || has_char x b)%bool.
Proof.
  induction a as [|c a IH]; simpl; [reflexivity|].
  now rewrite IH, orb_assoc.
Qed.

Lemma unify_newlines_no_cr t : has_char CR t = false -> unify_newlines t = t.
Proof.
  induction t as [|a r IH]; simpl; [reflexivity|].
  intros H. apply orb_false_elim in H as [Ha Hr].
  rewrite Ha. now rewrite IH.
Qed.

Lemma drop_final_newline_app a b :
  b <> "" -> drop_final_newline (a ++ b) = a ++ drop_final_newline b.
Proof.
  intros Hb. induction a as [|x a IH]; [reflexivity|].
  change (String x a ++ b) with (String x (a ++ b)).
  cbn [drop_final_newline]. rewrite IH.
  destruct (a ++ b) eqn:E; [|reflexivity].
  destruct a; [simpl in E; contradiction | discriminate].
Qed.

Lemma tagfree_app a b : has_char "{" a = false -> tagfree (a ++ b) = tagfree b.
Proof.
  induction a as [|x a IH]; [reflexivity|].
  simpl. intros H. apply orb_false_elim in H as [Hx Ha].
  rewrite Hx. now apply IH.
Qed.

Lemma flush_cons a seg r : flush (a :: seg) ++ r = flush seg ++ String a r.
Proof.
  unfold flush. simpl. generalize (rev seg) as l.
  induction l as [|x l IH]; simpl; [reflexivity | now rewrite IH].
Qed.

Section Template_facts.
Context {lib : PyLib}.

(** Text without tags is rendered as it is. *)
Lemma lex_tagfree t : forall seg,
  tagfree t = true -> lex false seg t = Ok (flush seg ++ t).
Proof.
  induction t as [|a r IH]; intros seg H.
  - simpl. now rewrite append_empty_r.
  - cbn [lex]. cbn [tagfree] in H.
    destruct (Ascii.eqb a "{").
    + destruct r as [|b r1].
      * simpl. now rewrite <- flush_cons, append_empty_r.
      * destruct (Ascii.eqb b "{"), (Ascii.eqb b "%"), (Ascii.eqb b "#");
          simpl in H; try discriminate H.
        cbn [orb]. rewrite IH by exact H. now rewrite flush_cons.
    + rewrite IH by exact H. now rewrite flush_cons.
Qed.

Lemma render_plain_page u :
  has_char "{" u = false ->
  has_char CR u = false ->
  render_template_string (welcome_message u) = Ok (welcome_message u).
Proof.
  intros Hbrace Hcr. unfold render_template_string, welcome_message.
  assert (Hh1 : has_char CR page_head = false) by (vm_compute; reflexivity).
  assert (Hh2 : has_char "{" page_head = false) by (vm_compute; reflexivity).
  assert (Ht1 : has_char CR ("predict" ++ page_tail) = false) by (vm_compute; reflexivity).
  assert (Ht2 : tagfree ("predict" ++ page_tail) = true) by (vm_compute; reflexivity).
  assert (Ht3 : drop_final_newline page_tail = page_tail) by (vm_compute; reflexivity).
  assert (Ht4 : page_tail <> "") by (vm_compute; discriminate).
  rewrite append_assoc.
  rewrite unify_newlines_no_cr
    by (rewrite !has_char_app, Hh1, Hcr; exact Ht1).
  rewrite <- !append_assoc. rewrite drop_final_newline_app, Ht3 by exact Ht4.
  rewrite !append_assoc.
  rewrite lex_tagfree; [reflexivity|].
  now rewrite (tagfree_app page_head), (tagfree_app u).
Qed.

(** For a URL root without a brace or a carriage return, [GET /] is 200 with
    the page in which the endpoint is the URL root followed by [predict],
    whatever was loaded, and nothing else happens. *)
Lemma home_plain_url st req :
  has_char "{" (url_root req) = false ->
  has_char CR (url_root req) = false ->
  serve st (GET_root req)
  = ({| status := 200; body := Html (welcome_message (url_root req)) |}, [])
  /\ contains (url_root req ++ "predict") (welcome_message (url_root req)).
Proof.
  intros Hb Hc. split.
  - unfold serve, home. now rewrite render_plain_page.
  - exists page_head, page_tail. reflexivity.
Qed.


End Template_facts.

(** ** Start-up *)

Lemma load_failed_prints e : load_failed e <> [].
Proof. unfold load_failed. destruct (exn_cls e); discriminate. Qed.

(** When either load raises, the loader prints the diagnostic of the first
    exception and returns a state in which the service is unavailable. *)
Lemma startup_load_failure d :
  (exists e, load_model_file d = Raise e) \/ (exists e, load_encoder_file d = Raise e) ->
  available (fst (startup d)) = false
  /\ (exists e, snd (startup d) = load_failed e)
  /\ snd (startup d) <> [].
Proof.
  intros H. unfold startup.
  destruct (load_model_file d) as [model|e1].
  - destruct (load_encoder_file d) as [le|e2].
    + destruct H as [[e H]|[e H]]; discriminate.
    + simpl. repeat split; [now exists e2 | apply load_failed_prints].
  - simpl. repeat split; [now exists e1 | apply load_failed_prints].
Qed.

(** After a failed load every POST /predict is refused and [GET /] on a plain
    URL root is served as usual. *)
Lemma startup_load_failure_serving {lib : PyLib} d req :
  (exists e, load_model_file d = Raise e) \/ (exists e, load_encoder_file d = Raise e) ->
  fst (serve (fst (startup d)) (POST_predict req))
  = {| status := 500; body := jsonify1 "error" unavailable_message |}
  /\ (has_char "{" (url_root req) = false ->
      has_char CR (url_root req) = false ->
      serve (fst (startup d)) (GET_root req)
      = ({| status := 200; body := Html (welcome_message (url_root req)) |}, [])).
Proof.
  intros H. destruct (startup_load_failure d H) as (Hav & _). split.
  - unfold serve. now rewrite predict_guard.
  - intros Hb Hc. now apply home_plain_url.
Qed.


(** With no [models/] directory the loader prints its three lines and the
    service is unavailable. *)
Lemma startup_empty_disk :
  startup empty_disk
  = (unloaded_state,
     [ EvPrint "Error: Model files not found at 'models/personality_model.joblib' or 'models/personality_label_encoder.joblib'.";
       EvPrint "Please ensure the 'models/' directory exists in the project root and contains the '.joblib' files.";
       EvPrint "You need to train the model first by running the `introvert_extrovert_predictor.ipynb` notebook to generate these files." ]).
Proof. reflexivity. Qed.

(** C8.  [GET /] with a Host header that holds a template comment is 200,
    but the comment is gone from the page, which therefore does not contain
    the URL root followed by [predict]; with a Host header that opens a
    comment and does not close it, the answer is Flask's 500 page. *)
Theorem home_template_injection {lib : PyLib} (st : server_state) :
  serve st (GET_root {| url_root := "http://{#x#}/";
                        get_json := Raise (mkExn BadRequest "") |})
  = ({| status := 200;
        body := Html (page_head ++ "http:///predict" ++ page_tail) |}, [])
  /\ ~ contains ("http://{#x#}/" ++ "predict")
                (page_head ++ "http:///predict" ++ page_tail)
  /\ serve st (GET_root {| url_root := "http://{#/";
                           get_json := Raise (mkExn BadRequest "") |})
     = ({| status := 500; body := Html internal_server_error_page |}, [])
  /\ ~ contains ("http://{#/" ++ "predict") internal_server_error_page.
Proof.
  repeat split; try (vm_compute; reflexivity).
  - intros H. apply contains_infixb in H. vm_compute in H. discriminate H.
  - intros H. apply contains_infixb in H. vm_compute in H. discriminate H.
Qed.


(** * Further properties of the handlers *)

(** ** Frames *)

Section Frame_facts.
Context {lib : PyLib}.

(** X1.  On every frame, whatever columns it has, the two loops and the
    selection are the row of the seven cells, made in the order of the
    loops.  When they return, the result has the seven expected columns in
    the fixed order, a categorical column holds what the first loop makes of
    the cell (0 when the frame lacks the column) and a numeric column what
    the second loop makes of it ([None] when the frame lacks the column).
    They return exactly when each of the seven cells is made.  When they
    raise, the exception is that of a cell, a float that [astype(str)] kept
    missing under [lower] or an int outside the 64-bit ranges: the selection
    itself never raises, no column being absent by then. *)
Theorem normalize_any_frame (df : frame) :
  normalize df = frame_row (categorical_of df) (numeric_of df)
  /\ (forall row,
         normalize df = Ok row ->
         map fst row = expected_feature_order
         /\ (forall col, In col categorical_columns ->
                         exists cell, categorical_of df col = Ok cell
                                      /\ lookup row col = Some cell)
         /\ (forall col, In col numeric_columns ->
                         exists cell, numeric_of df col = Ok cell
                                      /\ lookup row col = Some cell))
  /\ ((exists row, normalize df = Ok row)
      <-> (forall col, In col categorical_columns ->
                       exists cell, categorical_of df col = Ok cell)
          /\ (forall col, In col numeric_columns ->
                          exists cell, numeric_of df col = Ok cell))
  /\ (forall e,
         normalize df = Raise e ->
         (exists col f,
             In col categorical_columns
             /\ lookup df col = Some (PFloat f)
             /\ astype_str_float f = None
             /\ e = no_lower)
         \/ (exists col z,
               In col numeric_columns
               /\ lookup df col = Some (PInt z)
               /\ in_64_bits z = false
               /\ wide_int_to_float z = Raise e)).
Proof.
  rewrite normalize_frame_row.
  split; [reflexivity|]. split; [|split].
  - intros row H. split; [exact (frame_row_columns _ _ row H)|]. split.
    + intros col Hcol. exact (frame_row_lookup_categorical _ _ row col H Hcol).
    + intros col Hcol. exact (frame_row_lookup_numeric _ _ row col H Hcol).
  - split.
    + intros [row H]. split; intros col Hcol.
      * destruct (frame_row_lookup_categorical _ _ row col H Hcol) as (cell & Hc & _).
        now exists cell.
      * destruct (frame_row_lookup_numeric _ _ row col H Hcol) as (cell & Hc & _).
        now exists cell.
    + intros [Hc Hn]. now apply frame_row_all_ok.
  - intros e H.
    destruct (frame_row_raise _ _ e H) as [(col & Hin & Hr)|(col & Hin & Hr)].
    + left. unfold categorical_of in Hr.
      destruct (lookup df col) as [v|] eqn:Hv; [|discriminate Hr].
      destruct (categorical_cell_raise v e Hr) as (-> & f & -> & Hf).
      now exists col, f.
    + right. unfold numeric_of in Hr.
      destruct (lookup df col) as [v|] eqn:Hv; [|discriminate Hr].
      destruct (to_numeric_raise v e Hr) as (z & -> & Hz & Hw).
      now exists col, z.
Qed.

End Frame_facts.

(** ** The outcomes of POST /predict *)

Section Outcome_criteria.
Context {lib : PyLib}.

(** X2.  With the artifacts loaded, a request is answered with 200 exactly
    when its body parses to a JSON object, the feature row of that object is
    built, the classifier answers the row with at least one code, and the
    encoder knows every code of the answer; the label sent is then the class
    of the first code.  In every other case the status is 500. *)
Theorem predict_succeeds_iff model le req :
  (status (fst (serve {| loaded_model := Some model;
                         loaded_le_personality := Some le |}
                      (POST_predict req))) = 200
   <-> exists items row c rest,
         get_json req = Ok (PDict items)
         /\ feature_row (dict_get items) = Ok row
         /\ clf_predict model row = Ok (c :: rest)
         /\ forallb (known_code le) (c :: rest) = true)
  /\ (forall items row c rest,
         get_json req = Ok (PDict items) ->
         feature_row (dict_get items) = Ok row ->
         clf_predict model row = Ok (c :: rest) ->
         forallb (known_code le) (c :: rest) = true ->
         fst (serve {| loaded_model := Some model;
                       loaded_le_personality := Some le |}
                    (POST_predict req))
         = prediction_response (nth (Z.to_nat c) (classes_ le) ""))
  /\ (status (fst (serve {| loaded_model := Some model;
                            loaded_le_personality := Some le |}
                         (POST_predict req))) = 200
      \/ status (fst (serve {| loaded_model := Some model;
                               loaded_le_personality := Some le |}
                            (POST_predict req))) = 500).
Proof.
  pose proof (predict_outcome_holds model le req) as H.
  remember (fst (serve {| loaded_model := Some model;
                          loaded_le_personality := Some le |}
                       (POST_predict req))) as r eqn:Er.
  remember (snd (serve {| loaded_model := Some model;
                          loaded_le_personality := Some le |}
                       (POST_predict req))) as t eqn:Et.
  clear Er Et.
  destruct H as [e Hj | v Hj Hd | items e Hj Hr | items row e Hj Hr Hp
                | items row codes Hj Hr Hp Hk | items row Hj Hr Hp
                | items row c rest Hj Hr Hp Hk];
    (split; [split|split]); cbn [status error_response prediction_response]; auto;
    try discriminate.
  - intros (i' & w' & c' & r' & Hj' & _). rewrite Hj in Hj'. discriminate Hj'.
  - intros i' w' c' r' Hj'. rewrite Hj in Hj'. discriminate Hj'.
  - intros (i' & w' & c' & r' & Hj' & _). rewrite Hj in Hj'.
    injection Hj' as ->. discriminate Hd.
  - intros i' w' c' r' Hj'. rewrite Hj in Hj'. injection Hj' as ->. discriminate Hd.
  - intros (i' & w' & c' & r' & Hj' & Hr' & _). rewrite Hj in Hj'.
    injection Hj' as <-. rewrite Hr in Hr'. discriminate Hr'.
  - intros i' w' c' r' Hj' Hr'. rewrite Hj in Hj'.
    injection Hj' as <-. rewrite Hr in Hr'. discriminate Hr'.
  - intros (i' & w' & c' & r' & Hj' & Hr' & Hp' & _). rewrite Hj in Hj'.
    injection Hj' as <-. rewrite Hr in Hr'. injection Hr' as <-.
    rewrite Hp in Hp'. discriminate Hp'.
  - intros i' w' c' r' Hj' Hr' Hp'. rewrite Hj in Hj'.
    injection Hj' as <-. rewrite Hr in Hr'. injection Hr' as <-.
    rewrite Hp in Hp'. discriminate Hp'.
  - intros (i' & w' & c' & r' & Hj' & Hr' & Hp' & Hk'). rewrite Hj in Hj'.
    injection Hj' as <-. rewrite Hr in Hr'. injection Hr' as <-.
    rewrite Hp in Hp'. injection Hp' as ->.
    rewrite Hk in Hk'. discriminate Hk'.
  - intros i' w' c' r' Hj' Hr' Hp' Hk'. rewrite Hj in Hj'.
    injection Hj' as <-. rewrite Hr in Hr'. injection Hr' as <-.
    rewrite Hp in Hp'. injection Hp' as ->.
    rewrite Hk in Hk'. discriminate Hk'.
  - intros (i' & w' & c' & r' & Hj' & Hr' & Hp' & _). rewrite Hj in Hj'.
    injection Hj' as <-. rewrite Hr in Hr'. injection Hr' as <-.
    rewrite Hp in Hp'. discriminate Hp'.
  - intros i' w' c' r' Hj' Hr' Hp'. rewrite Hj in Hj'.
    injection Hj' as <-. rewrite Hr in Hr'. injection Hr' as <-.
    rewrite Hp in Hp'. discriminate Hp'.
  - intros _. now exists items, row, c, rest.
  - intros i' w' c' r' Hj' Hr' Hp' _. rewrite Hj in Hj'.
    injection Hj' as <-. rewrite Hr in Hr'. injection Hr' as <-.
    rewrite Hp in Hp'. injection Hp' as <- <-.
    reflexivity.
Qed.

End Outcome_criteria.

Section Response_facts.
Context {lib : PyLib}.

(** X3.  Whatever the members of a JSON object are, every cell of its
    feature row, when the row is built, is a number: an int, a float (NaN
    for a missing value) or a boolean, never a string, a list, an object or
    [None]; and each of the two categorical cells is the int 0 or the int 1.
    The row is built unless a categorical field holds a float that
    [astype(str)] keeps missing or a numeric field holds an int outside the
    64-bit ranges that the library does not turn into a float; an object
    with no float in a categorical field and no such int in a numeric field
    always has its row. *)
Theorem feature_cells_are_numbers items :
  (forall row,
      feature_vector (PDict items) = (Ok row, []) ->
      forallb (fun kv => is_number_cell (snd kv)) row = true
      /\ (forall col, In col categorical_columns ->
                      lookup row col = Some (PInt 0) \/ lookup row col = Some (PInt 1)))
  /\ ((exists row, feature_vector (PDict items) = (Ok row, []))
      \/ (exists e,
            feature_vector (PDict items) = (Raise e, [])
            /\ ((exists col f,
                    In col categorical_columns
                    /\ lookup items col = Some (PFloat f)
                    /\ astype_str_float f = None
                    /\ e = no_lower)
                \/ (exists col z,
                      In col numeric_columns
                      /\ lookup items col = Some (PInt z)
                      /\ in_64_bits z = false
                      /\ wide_int_to_float z = Raise e))))
  /\ ((forall col f, In col categorical_columns ->
                     lookup items col <> Some (PFloat f)) ->
      (forall col z, In col numeric_columns ->
                     lookup items col = Some (PInt z) -> in_64_bits z = true) ->
      exists row, feature_vector (PDict items) = (Ok row, [])).
Proof.
  split; [|split].
  - intros row H. apply feature_vector_ok in H. split.
    + exact (feature_row_numbers _ row H).
    + intros col Hcol.
      destruct (feature_row_lookup_categorical _ row col H Hcol) as (cell & Hc & ->).
      destruct (categorical_cell_bit _ _ Hc) as [-> | ->]; auto.
  - destruct (feature_vector_cases items) as [H|[e H]]; [now left|].
    right. exists e. split; [exact H|]. now apply feature_vector_failure.
  - intros Hcat Hnum.
    destruct (feature_vector_cases items) as [H|[e H]]; [exact H|].
    destruct (feature_vector_failure items e H)
      as [(col & f & Hin & Hl & _)|(col & z & Hin & Hl & Hz & _)].
    + destruct (Hcat col f Hin Hl).
    + rewrite (Hnum col z Hin Hl) in Hz. discriminate Hz.
Qed.

(** X4.  The response to a JSON object depends on the object only through
    what [get] returns for the seven expected fields: two objects that agree
    there get the same response, in every state of the server.  So a field
    given as [null] is answered like a field left out, and other keys do not
    change the response. *)
Theorem response_depends_on_fields st req1 req2 items1 items2 :
  get_json req1 = Ok (PDict items1) ->
  get_json req2 = Ok (PDict items2) ->
  (forall f, In f expected_feature_order -> dict_get items1 f = dict_get items2 f) ->
  fst (serve st (POST_predict req1)) = fst (serve st (POST_predict req2)).
Proof.
  intros H1 H2 Hsame. destruct st as [[model|] [le|]];
    try (unfold serve; rewrite !predict_guard by reflexivity; reflexivity).
  pose proof (feature_row_ext (dict_get items2) (dict_get items1) Hsame) as E.
  destruct (feature_row (dict_get items2)) as [row|e] eqn:E2.
  - rewrite (predict_object_row model le req1 items1 row H1 E),
            (predict_object_row model le req2 items2 row H2 E2).
    destruct (clf_predict model row) as [codes|e];
      [destruct (forallb (known_code le) codes); [destruct codes|]|]; reflexivity.
  - now rewrite (predict_object_cell_raised model le req1 items1 e H1 E),
                (predict_object_cell_raised model le req2 items2 e H2 E2).
Qed.

(** X5.  In every state and for every request, the response of [predict] is
    one of its two JSON objects: status 500 with the single member ["error"],
    or status 200 with the single member ["prediction"], whose value is then
    one of the classes of the loaded encoder.  Flask's own error page is never
    the answer. *)
Theorem predict_response_shape st req :
  (exists le label,
      loaded_le_personality st = Some le
      /\ In label (classes_ le)
      /\ fst (serve st (POST_predict req)) = prediction_response label)
  \/ (exists message, fst (serve st (POST_predict req)) = error_response message).
Proof.
  destruct st as [[model|] [le|]];
    try (right; exists unavailable_message; unfold serve;
         rewrite predict_guard by reflexivity; reflexivity).
  pose proof (predict_outcome_holds model le req) as H.
  remember (fst (serve {| loaded_model := Some model;
                          loaded_le_personality := Some le |}
                       (POST_predict req))) as r eqn:Er.
  remember (snd (serve {| loaded_model := Some model;
                          loaded_le_personality := Some le |}
                       (POST_predict req))) as t eqn:Et.
  clear Er Et.
  destruct H as [e Hj | v Hj Hd | items e Hj Hr | items row e Hj Hr Hp
                | items row codes Hj Hr Hp Hk | items row Hj Hr Hp
                | items row c rest Hj Hr Hp Hk];
    try (right; eexists; reflexivity).
  left. exists le, (nth (Z.to_nat c) (classes_ le) "").
  split; [reflexivity|]. split; [|reflexivity].
  destruct (inverse_transform_known le c rest Hk) as (_ & _ & Hin). exact Hin.
Qed.

(** X6.  With the artifacts loaded, a body that is not JSON (so that
    [get_json] raises) gets status 500 with the text of that exception after
    the fixed prefix; the only things done are the call of [get_json] and the
    print of the error: the request data line is not printed and neither the
    classifier nor the encoder is called. *)
Theorem predict_bad_body model le req e :
  get_json req = Raise e ->
  serve {| loaded_model := Some model; loaded_le_personality := Some le |}
        (POST_predict req)
  = (error_response ("An internal server error occurred during prediction: "
                     ++ exn_text e),
     [EvParse; EvPrint ("Error during prediction: " ++ exn_text e)]).
Proof.
  intros Hj. unfold serve.
  now rewrite predict_loaded, (predict_try_parse_error model le req e Hj).
Qed.

(** X7.  In every state and for every request, [predict] parses the body at
    most once and calls the classifier at most once; a frame it gives to the
    classifier has the seven expected columns in the fixed order and holds
    only numbers; and the encoder is called only with what the loaded
    classifier answered on such a frame. *)
Theorem predict_trace_discipline st req :
  (count_parse (snd (serve st (POST_predict req))) <= 1)%nat
  /\ (count_predict (snd (serve st (POST_predict req))) <= 1)%nat
  /\ (forall row,
         In (EvPredict row) (snd (serve st (POST_predict req))) ->
         map fst row = expected_feature_order
         /\ forallb (fun kv => is_number_cell (snd kv)) row = true)
  /\ (forall codes,
         In (EvDecode codes) (snd (serve st (POST_predict req))) ->
         exists model row,
           loaded_model st = Some model
           /\ In (EvPredict row) (snd (serve st (POST_predict req)))
           /\ clf_predict model row = Ok codes).
Proof.
  destruct st as [[model|] [le|]];
    try (unfold serve; rewrite predict_guard by reflexivity; simpl;
         repeat split; try lia; intros ? []).
  pose proof (predict_outcome_holds model le req) as H.
  remember (fst (serve {| loaded_model := Some model;
                          loaded_le_personality := Some le |}
                       (POST_predict req))) as r eqn:Er.
  remember (snd (serve {| loaded_model := Some model;
                          loaded_le_personality := Some le |}
                       (POST_predict req))) as t eqn:Et.
  clear Er Et.
  destruct H as [e Hj | v Hj Hd | items e Hj Hr | items row e Hj Hr Hp
                | items row codes Hj Hr Hp Hk | items row Hj Hr Hp
                | items row c rest Hj Hr Hp Hk];
    unfold received_line, error_line; cbn [count_parse count_predict];
    (split; [lia|]); (split; [lia|]); split;
    intros x Hin; simpl in Hin;
    repeat (destruct Hin as [Hin|Hin]; try discriminate Hin);
    try contradiction;
    try solve [injection Hin as <-;
               split; [exact (feature_row_columns _ _ Hr)
                      | exact (feature_row_numbers _ _ Hr)]].
  all: injection Hin as <-; exists model, row;
    (split; [reflexivity|]); split; [simpl; auto | exact Hp].
Qed.

End Response_facts.

Lemma response_depends_on_fields_witness :
  fst (serve (lib := sample_lib) sample_state
         (POST_predict (request_with
            (Ok (PDict [("Stage_fear", PNone); ("zodiac", PStr "Leo")])))))
  = fst (serve (lib := sample_lib) sample_state
           (POST_predict (request_with (Ok (PDict []))))).
Proof.
  apply (@response_depends_on_fields sample_lib sample_state
           (request_with (Ok (PDict [("Stage_fear", PNone); ("zodiac", PStr "Leo")])))
           (request_with (Ok (PDict [])))
           [("Stage_fear", PNone); ("zodiac", PStr "Leo")] []).
  - reflexivity.
  - reflexivity.
  - intros f [<-|[<-|[<-|[<-|[<-|[<-|[<-|[]]]]]]]]; reflexivity.
Defined.

Lemma predict_bad_body_witness :
  serve (lib := sample_lib) sample_state
        (POST_predict (request_with (Raise bad_request)))
  = (error_response ("An internal server error occurred during prediction: "
                     ++ exn_text bad_request),
     [EvParse; EvPrint ("Error during prediction: " ++ exn_text bad_request)]).
Proof.
  apply (@predict_bad_body sample_lib sample_model sample_encoder
           (request_with (Raise bad_request)) bad_request).
  reflexivity.
Defined.

(** ** Loading, then serving *)

(** X8.  The service is available after start-up exactly when both loads
    returned; the state then holds the two loaded objects and the two
    success lines were printed.  In every other case neither success line is
    printed, even when the classifier itself loaded, and the diagnostic
    is that of the first load that raised. *)
Theorem startup_available_iff (d : disk) :
  (available (fst (startup d)) = true
   <-> exists model le,
         load_model_file d = Ok model /\ load_encoder_file d = Ok le)
  /\ (forall model le,
         load_model_file d = Ok model -> load_encoder_file d = Ok le ->
         startup d
         = ({| loaded_model := Some model; loaded_le_personality := Some le |},
            success_lines))
  /\ (available (fst (startup d)) = false ->
      (forall line, In line success_lines -> ~ In line (snd (startup d)))
      /\ exists e,
           snd (startup d) = load_failed e
           /\ (load_model_file d = Raise e
               \/ exists model,
                    load_model_file d = Ok model
                    /\ load_encoder_file d = Raise e
                    /\ loaded_model (fst (startup d)) = Some model)).
Proof.
  unfold startup.
  destruct (load_model_file d) as [model|e1] eqn:H1;
    [destruct (load_encoder_file d) as [le|e2] eqn:H2|]; simpl.
  - split; [split|split].
    + intros _. now exists model, le.
    + reflexivity.
    + intros m l Hm Hl. injection Hm as <-. injection Hl as <-. reflexivity.
    + discriminate.
  - split; [split|split].
    + discriminate.
    + intros (m & l & _ & Hl). discriminate Hl.
    + intros m l _ Hl. discriminate Hl.
    + intros _. split.
      * intros line Hline Hin. unfold load_failed in Hin.
        destruct (exn_cls e2); simpl in Hline, Hin;
          repeat (destruct Hline as [Hline|Hline]; subst;
                  try (repeat (destruct Hin as [Hin|Hin]; try discriminate Hin);
                       contradiction)).
      * exists e2. split; [reflexivity|]. right. now exists model.
  - split; [split|split].
    + discriminate.
    + intros (m & l & Hm & _). discriminate Hm.
    + intros m l Hm _. discriminate Hm.
    + intros _. split.
      * intros line Hline Hin. unfold load_failed in Hin.
        destruct (exn_cls e1); simpl in Hline, Hin;
          repeat (destruct Hline as [Hline|Hline]; subst;
                  try (repeat (destruct Hin as [Hin|Hin]; try discriminate Hin);
                       contradiction)).
      * exists e1. split; [reflexivity|]. now left.
Qed.

(** X9.  After a start-up in which either load raised, every POST /predict
    is refused with status 500 and the fixed error object, and its trace is
    empty: the body is not parsed and a classifier that did load is not
    called. *)
Theorem failed_load_refuses_predictions {lib : PyLib} (d : disk) (req : request) :
  (exists e, load_model_file d = Raise e) \/ (exists e, load_encoder_file d = Raise e) ->
  serve (fst (startup d)) (POST_predict req)
  = (error_response "Prediction service unavailable: Model not loaded on server.", []).
Proof.
  intros H. destruct (startup_load_failure d H) as (Hav & _).
  unfold serve. now rewrite predict_guard.
Qed.

Lemma failed_load_refuses_predictions_witness :
  serve (lib := sample_lib) (fst (startup half_disk))
        (POST_predict (request_with (Ok (PDict []))))
  = (error_response "Prediction service unavailable: Model not loaded on server.", []).
Proof.
  apply (@failed_load_refuses_predictions sample_lib half_disk).
  right. eexists. reflexivity.
Defined.

(** ** The entry point: reading the port *)

Lemma decimal_value_pos d a :
  decimal_value d (Zpos a) = Zpos (Pos.of_uint_acc d a).
Proof.
  revert a. induction d; intros a; cbn [decimal_value Pos.of_uint_acc];
    try reflexivity; rewrite <- IHd; f_equal; lia.
Qed.

Lemma decimal_value_of_uint d : decimal_value d 0 = Z.of_N (Pos.of_uint d).
Proof.
  induction d; simpl; try reflexivity; try exact IHd;
    now rewrite <- decimal_value_pos.
Qed.

Ltac eval_digit :=
  match goal with
  | |- context [digit_value ?c] =>
      let v := eval vm_compute in (digit_value c) in
      change (digit_value c) with v
  end.

Lemma scan_digits_decimal d : forall acc,
  scan_digits false acc (NilEmpty.string_of_uint d) = Some (decimal_value d acc, "").
Proof.
  induction d; intros acc;
    cbn [NilEmpty.string_of_uint decimal_value scan_digits];
    [reflexivity | ..];
    eval_digit; cbn iota; rewrite IHd; try reflexivity; now rewrite Z.add_0_r.
Qed.

Lemma is_ascii_text_decimal d : is_ascii_text (NilEmpty.string_of_uint d) = true.
Proof. induction d; simpl; auto. Qed.

(** Reading the text of a positive number: no space, no sign, the digits. *)
Lemma parse_digits_pos p :
  skip_spaces (NilZero.string_of_uint (Pos.to_uint p))
  = NilZero.string_of_uint (Pos.to_uint p)
  /\ read_sign (NilZero.string_of_uint (Pos.to_uint p))
     = (false, NilZero.string_of_uint (Pos.to_uint p))
  /\ starts_with_digit (NilZero.string_of_uint (Pos.to_uint p)) = true
  /\ scan_digits false 0 (NilZero.string_of_uint (Pos.to_uint p)) = Some (Zpos p, "")
  /\ is_ascii_text (NilZero.string_of_uint (Pos.to_uint p)) = true.
Proof.
  pose proof (DecimalPos.Unsigned.of_to p) as Hp.
  pose proof (DecimalPos.Unsigned.to_uint_nonnil p) as Hn.
  assert (Hv : decimal_value (Pos.to_uint p) 0 = Zpos p)
    by now rewrite decimal_value_of_uint, Hp.
  assert (Hs : NilZero.string_of_uint (Pos.to_uint p)
               = NilEmpty.string_of_uint (Pos.to_uint p))
    by (destruct (Pos.to_uint p); [contradiction | reflexivity ..]).
  rewrite Hs. rewrite scan_digits_decimal, Hv, is_ascii_text_decimal.
  destruct (Pos.to_uint p); [contradiction | repeat split ..].
Qed.

(** [int] reads back what [str] writes. *)
Lemma parse_int_str z : parse_int_ascii (int_str z) = Some z.
Proof.
  unfold int_str, parse_int_ascii.
  destruct z as [|p|p]; [reflexivity | |];
    destruct (parse_digits_pos p) as (Hsp & Hsg & Hd & Hsc & _).
  - change (NilZero.string_of_int (Z.to_int (Zpos p)))
      with (NilZero.string_of_uint (Pos.to_uint p)).
    rewrite Hsp, Hsg. cbv beta iota. now rewrite Hd, Hsc.
  - change (NilZero.string_of_int (Z.to_int (Zneg p)))
      with (String "-" (NilZero.string_of_uint (Pos.to_uint p))).
    change (skip_spaces (String "-" (NilZero.string_of_uint (Pos.to_uint p))))
      with (String "-" (NilZero.string_of_uint (Pos.to_uint p))).
    change (read_sign (String "-" (NilZero.string_of_uint (Pos.to_uint p))))
      with (true, NilZero.string_of_uint (Pos.to_uint p)).
    cbv beta iota. now rewrite Hd, Hsc.
Qed.

Lemma is_ascii_text_int_str z : is_ascii_text (int_str z) = true.
Proof.
  unfold int_str. destruct z as [|p|p]; [reflexivity | |];
    destruct (parse_digits_pos p) as (_ & _ & _ & _ & Ha).
  - exact Ha.
  - change (NilZero.string_of_int (Z.to_int (Zneg p)))
      with (String "-" (NilZero.string_of_uint (Pos.to_uint p))).
    simpl. exact Ha.
Qed.

Lemma has_digit_skip_spaces s : has_digit s = false -> has_digit (skip_spaces s) = false.
Proof.
  induction s as [|a r IH]; [reflexivity|].
  intros H. cbn [skip_spaces]. destruct (is_c_space a); [|exact H].
  apply IH. cbn [has_digit] in H. now apply orb_false_elim in H.
Qed.

Lemma has_digit_read_sign s : has_digit s = false -> has_digit (snd (read_sign s)) = false.
Proof.
  destruct s as [|a r]; [reflexivity|].
  intros H. unfold read_sign.
  assert (Hr : has_digit r = false)
    by (cbn [has_digit] in H; now apply orb_false_elim in H).
  destruct (Ascii.eqb a "-"); [exact Hr|].
  destruct (Ascii.eqb a "+"); [exact Hr | exact H].
Qed.

Lemma parse_int_no_digit s : has_digit s = false -> parse_int_ascii s = None.
Proof.
  intros H. unfold parse_int_ascii.
  pose proof (has_digit_read_sign _ (has_digit_skip_spaces s H)) as Hd.
  destruct (read_sign (skip_spaces s)) as [negative digits]. simpl in Hd.
  destruct digits as [|a r]; [reflexivity|].
  cbn [starts_with_digit]. cbn [has_digit] in Hd.
  destruct (digit_value a); [discriminate Hd | reflexivity].
Qed.

Lemma substring_all s : forall n, (String.length s <= n)%nat -> substring 0 n s = s.
Proof.
  induction s as [|a r IH]; intros [|n] H; simpl in *; try reflexivity; try lia.
  rewrite IH by lia. reflexivity.
Qed.

Section Main_facts.
Context {lib : PyLib} {il : PyIntLib}.

(** X10.  The port is read back from the text [str] writes: when [PORT] holds
    the decimal text of an integer [n] (of at most 4300 characters), the
    script prints its start line with that text and calls
    [app.run('0.0.0.0', n, debug=False)]; and when [PORT] is not set it does
    so with 5000.  Other environment variables play no part. *)
Theorem main_port_round_trip (env : environ) (n : Z) :
  (env "PORT" = Some (int_str n) ->
   (String.length (int_str n) <= 4300)%nat ->
   main env
   = (AppRun "0.0.0.0" n false,
      [EvPrint ("Flask app starting on port " ++ int_str n)]))
  /\ (env "PORT" = None ->
      main env
      = (AppRun "0.0.0.0" 5000 false, [EvPrint "Flask app starting on port 5000"])).
Proof.
  split.
  - intros He Hlen. unfold main, port_of, int_of_str. rewrite He.
    rewrite is_ascii_text_int_str, parse_int_str.
    apply Nat.leb_le in Hlen. now rewrite Hlen.
  - intros He. unfold main, port_of. now rewrite He.
Qed.

(** X11.  When [PORT] holds ASCII text (of at most 4300 characters) without
    a decimal digit, such as the empty string or a word, [int] raises
    [ValueError], whose text ends with at most the first 200 characters of
    the quoted string, the whole of it when it is that short: nothing is
    printed and [app.run] is not reached, whatever was loaded before. *)
Theorem main_port_without_digit (env : environ) (d : disk) (s : string) :
  env "PORT" = Some s ->
  is_ascii_text s = true ->
  (String.length s <= 4300)%nat ->
  has_digit s = false ->
  main env
  = (MainRaised (mkExn ValueError
                   ("invalid literal for int() with base 10: "
                    ++ substring 0 200 (str_repr s))), [])
  /\ script d env
     = (fst (startup d),
        MainRaised (mkExn ValueError
                      ("invalid literal for int() with base 10: "
                       ++ substring 0 200 (str_repr s))),
        snd (startup d))
  /\ ((String.length (str_repr s) <= 200)%nat ->
      main env
      = (MainRaised (mkExn ValueError
                       ("invalid literal for int() with base 10: " ++ str_repr s)), [])).
Proof.
  intros He Ha Hlen Hd.
  assert (Hm : main env = (MainRaised (invalid_literal s), [])).
  { unfold main, port_of, int_of_str. rewrite He, Ha.
    apply Nat.leb_le in Hlen. rewrite Hlen.
    now rewrite (parse_int_no_digit s Hd). }
  split; [exact Hm|]. split.
  - unfold script. rewrite Hm. destruct (startup d) as [st loading].
    simpl. now rewrite app_nil_r.
  - intros Hshort. rewrite Hm. unfold invalid_literal.
    now rewrite substring_all.
Qed.

End Main_facts.

Lemma main_port_round_trip_witness :
  main (lib := sample_lib) (il := sample_int_lib) (env_port "8080")
  = (AppRun "0.0.0.0" 8080 false, [EvPrint "Flask app starting on port 8080"])
  /\ main (lib := sample_lib) (il := sample_int_lib) env_empty
     = (AppRun "0.0.0.0" 5000 false, [EvPrint "Flask app starting on port 5000"]).
Proof.
  split.
  - apply (proj1 (@main_port_round_trip sample_lib sample_int_lib
                    (env_port "8080") 8080)).
    + reflexivity.
    + vm_compute. repeat constructor.
  - apply (proj2 (@main_port_round_trip sample_lib sample_int_lib env_empty 0)).
    reflexivity.
Defined.

Lemma main_port_without_digit_witness :
  main (lib := sample_lib) (il := sample_int_lib) (env_port "http")
  = (MainRaised (mkExn ValueError
                   "invalid literal for int() with base 10: 'http'"), []).
Proof.
  apply (proj1 (@main_port_without_digit sample_lib sample_int_lib
                  (env_port "http") full_disk "http"
                  eq_refl eq_refl ltac:(vm_compute; repeat constructor) eq_refl)).
Defined.

(** A word of 300 letters in [PORT]: the text of the error has 240
    characters, the 40 of the fixed part and the first 200 of the quoted
    word. *)
Example main_port_long_word :
  exists e,
    main (lib := sample_lib) (il := sample_int_lib) (env_port long_word)
    = (MainRaised e, [])
    /\ exn_cls e = ValueError
    /\ String.length (exn_text e) = 240%nat
    /\ String.length (str_repr (PyLib := sample_lib) long_word) = 302%nat.
Proof. eexists. repeat split; vm_compute; reflexivity. Qed.

(** ** GET /: the endpoint shown, and the URL roots that break the page *)

Lemma has_comment_end_app a b :
  has_char "#" a = false -> has_comment_end (a ++ b) = has_comment_end b.
Proof.
  induction a as [|x a IH]; [reflexivity|].
  intros H. cbn [has_char] in H. apply orb_false_elim in H as [Hx Ha].
  change (String x a ++ b) with (String x (a ++ b)).
  cbn [has_comment_end]. rewrite (IH Ha), Hx.
  now destruct (a ++ b).
Qed.

Section Home_facts.
Context {lib : PyLib}.

(** Text without a brace is read as literal text. *)
Lemma lex_data_prefix a : forall seg b,
  has_char "{" a = false ->
  lex false seg (a ++ b) = lex false (rev_chars a seg) b.
Proof.
  induction a as [|x a IH]; intros seg b H; [reflexivity|].
  cbn [has_char] in H. apply orb_false_elim in H as [Hx Ha].
  change (String x a ++ b) with (String x (a ++ b)).
  cbn [lex rev_chars]. rewrite Hx. now apply IH.
Qed.

(** A comment that is not closed is a syntax error. *)
Lemma lex_open_comment t : forall seg,
  has_comment_end t = false -> lex true seg t = Raise missing_comment_end.
Proof.
  induction t as [|a r IH]; intros seg H; [reflexivity|].
  cbn [has_comment_end] in H. apply orb_false_elim in H as [Hab Hr].
  cbn [lex]. destruct r as [|b r1]; [now apply IH|].
  rewrite Hab.
  destruct r1 as [|c r2]; [now apply IH|].
  pose proof Hr as Hbc.
  cbn [has_comment_end] in Hbc. apply orb_false_elim in Hbc as [Hbc _].
  rewrite Hbc. now apply IH.
Qed.

(** X12.  For a URL root without a brace and without a carriage return,
    [GET /] is answered with 200 and the page in which the endpoint, inside
    its [code] element, is the URL root followed by [predict]; the answer is
    the same in every state of the server and for every body, and the request
    leaves no trace. *)
Theorem home_serves_endpoint st req :
  has_char "{" (url_root req) = false ->
  has_char CR (url_root req) = false ->
  serve st (GET_root req)
  = ({| status := 200;
        body := Html (page_head ++ url_root req ++ "predict" ++ page_tail) |}, [])
  /\ contains ("<code>" ++ url_root req ++ "predict</code>")
              (page_head ++ url_root req ++ "predict" ++ page_tail).
Proof.
  intros Hb Hc. split.
  - unfold serve, home. rewrite render_plain_page by assumption.
    unfold welcome_message. now rewrite append_assoc.
  - assert (Hh : exists h, page_head = h ++ "<code>").
    { exists (substring 0 (String.length page_head - 6) page_head).
      vm_compute. reflexivity. }
    assert (Ht : exists t, page_tail = "</code>" ++ t).
    { exists (substring 7 (String.length page_tail - 7) page_tail).
      vm_compute. reflexivity. }
    destruct Hh as [h ->], Ht as [t ->].
    exists h, t. rewrite !append_assoc. reflexivity.
Qed.

(** X13.  A URL root in which a template comment is opened and not closed
    breaks the page: when the root is some text without a brace, then a brace
    and a hash, then text without a hash, a sign or a carriage return,
    [GET /] is answered with Flask's 500 page, in every state of the server. *)
Theorem home_unclosed_comment st req before after :
  url_root req = before ++ "{#" ++ after ->
  has_char "{" before = false ->
  has_char CR before = false ->
  has_char "#" after = false ->
  has_char "-" after = false ->
  has_char "+" after = false ->
  has_char CR after = false ->
  serve st (GET_root req) = (internal_server_error, []).
Proof.
  intros Hu Hb1 Hb2 Ha1 Ha2 Ha3 Ha4.
  assert (Hh1 : has_char CR page_head = false) by (vm_compute; reflexivity).
  assert (Hh2 : has_char "{" page_head = false) by (vm_compute; reflexivity).
  assert (Ht1 : has_char CR ("predict" ++ page_tail) = false) by (vm_compute; reflexivity).
  assert (Ht2 : has_comment_end ("predict" ++ page_tail) = false)
    by (vm_compute; reflexivity).
  assert (Ht3 : drop_final_newline page_tail = page_tail) by (vm_compute; reflexivity).
  assert (Ht4 : page_tail <> "") by (vm_compute; discriminate).
  assert (Hr : render_template_string (welcome_message (url_root req))
               = Raise missing_comment_end).
  { unfold render_template_string, welcome_message. rewrite Hu.
    rewrite !append_assoc.
    rewrite unify_newlines_no_cr
      by (rewrite !has_char_app, Hh1, Hb2, Ha4; exact Ht1).
    rewrite <- !append_assoc. rewrite drop_final_newline_app, Ht3 by exact Ht4.
    rewrite !append_assoc.
    rewrite (lex_data_prefix page_head) by exact Hh2.
    rewrite (lex_data_prefix before) by exact Hb1.
    assert (Hend : has_comment_end (after ++ "predict" ++ page_tail) = false)
      by now rewrite has_comment_end_app.
    change ("{#" ++ after ++ "predict" ++ page_tail)
      with (String "{" (String "#" (after ++ "predict" ++ page_tail))).
    cbn [lex]. change (Ascii.eqb "{" "{") with true.
    change (Ascii.eqb "#" "{" || Ascii.eqb "#" "%")%bool with false.
    change (Ascii.eqb "#" "#") with true. cbn iota.
    destruct after as [|c r].
    - simpl. reflexivity.
    - change (String c r ++ "predict" ++ page_tail)
        with (String c (r ++ "predict" ++ page_tail)) in *.
      cbn [has_char] in Ha2, Ha3.
      apply orb_false_elim in Ha2 as [Hc2 _].
      apply orb_false_elim in Ha3 as [Hc3 _].
      rewrite Hc2, Hc3.
      now rewrite (lex_open_comment _ [] Hend). }
  unfold serve, home. now rewrite Hr.
Qed.

End Home_facts.

Lemma home_serves_endpoint_witness :
  serve (lib := sample_lib) unloaded_state (GET_root (request_with (Ok PNone)))
  = ({| status := 200;
        body := Html (page_head ++ "http://localhost:5000/" ++ "predict" ++ page_tail) |},
     []).
Proof.
  apply (proj1 (@home_serves_endpoint sample_lib unloaded_state
                  (request_with (Ok PNone)) eq_refl eq_refl)).
Defined.

Lemma home_unclosed_comment_witness :
  serve (lib := sample_lib) sample_state
        (GET_root {| url_root := "http://{#/"; get_json := Ok PNone |})
  = (internal_server_error, []).
Proof.
  apply (@home_unclosed_comment sample_lib sample_state
           {| url_root := "http://{#/"; get_json := Ok PNone |}
           "http://" "/"); reflexivity.
Defined.
